(** * Remote-object bridge: execution context and element handles

    A shallow embedding of [src/chromium/JSHandle.ts] (class [ElementHandle]
    and [computeQuadArea]) and of the execution-context delegate
    ([ExecutionContextDelegate.evaluate] with its local helpers
    [convertArgument] and [rewriteError]).

    Conventions of the embedding.
    - A geometric JavaScript number (a coordinate, a length, an area) is an
      exact rational of [Q]; rounding, overflow and the non-finite values of
      IEEE-754 doubles are outside the geometric model.  Equality of such
      numbers is [Qeq], written [==].
    - A JavaScript value that is inspected dynamically ([typeof],
      [Object.is], [instanceof]) is a term of [JsVal].
    - A function that can [throw] returns a [Result].
    - A protocol round trip is a question to a [Browser], a record of reply
      functions that see the whole history of earlier requests; the history
      is threaded through the [M] monad. *)

From Stdlib Require Import QArith Qabs Qround Qminmax.
From Stdlib Require Import ZArith List Bool Ascii String.
From Stdlib Require Import Numbers.DecimalString Numbers.DecimalZ Numbers.DecimalPos.
From Stdlib Require Import Lia Lra Psatz.
Import ListNotations.

Local Open Scope Q_scope.

(** ** Results of code that may throw *)

Inductive Result (A : Type) : Type :=
| Ok (a : A)
| Throw (message : string).
Arguments Ok {A} a.
Arguments Throw {A} message.

(** ** Comparisons of numbers, as booleans *)

Definition Qltb (a b : Q) : bool :=
  match a ?= b with Lt => true | _ => false end.

Definition Qgtb (a b : Q) : bool := Qltb b a.

(** ** Points and quads *)

Record Point : Type := mkPoint { x : Q; y : Q }.

Definition point_eq (p q : Point) : Prop := x p == x q /\ y p == y q.

(** A quad as the protocol sends it: eight numbers, [x] immediately followed
    by [y] for each of the four corners. *)
Record ProtocolQuad : Type := mkProtocolQuad {
  q0 : Q; q1 : Q; q2 : Q; q3 : Q; q4 : Q; q5 : Q; q6 : Q; q7 : Q
}.

Definition origin : Point := mkPoint 0 0.

(** [computeQuadArea]: the loop runs [i] over [0 .. quad.length - 1] and adds
    the directed area of the triangle spanned by [quad[i]] and
    [quad[(i + 1) % quad.length]]. *)
Definition directedArea (p1 p2 : Point) : Q :=
  (x p1 * y p2 - x p2 * y p1) / 2.

Definition computeQuadArea (quad : list Point) : Q :=
  let n := List.length quad in
  Qabs (fold_left
          (fun area i =>
             let p1 := nth i quad origin in
             let p2 := nth ((i + 1) mod n)%nat quad origin in
             area + directedArea p1 p2)
          (seq 0 n) 0).

(** [_fromProtocolQuad] *)
Definition _fromProtocolQuad (quad : ProtocolQuad) : list Point :=
  [ mkPoint (q0 quad) (q1 quad);
    mkPoint (q2 quad) (q3 quad);
    mkPoint (q4 quad) (q5 quad);
    mkPoint (q6 quad) (q7 quad) ].

(** [_intersectQuadWithViewport] *)
Definition _intersectQuadWithViewport
    (quad : list Point) (width height : Q) : list Point :=
  map (fun point =>
         mkPoint (Qmin (Qmax (x point) 0) width)
                 (Qmin (Qmax (y point) 0) height))
      quad.

(** ** Replies of the browser that the geometry code reads *)

Record LayoutViewport : Type := mkLayoutViewport {
  pageX : Q; pageY : Q; clientWidth : Q; clientHeight : Q
}.

Record LayoutMetrics : Type := mkLayoutMetrics {
  layoutViewport : LayoutViewport
}.

Record BoxModel : Type := mkBoxModel {
  padding : ProtocolQuad;
  border : ProtocolQuad
}.

Definition notVisibleMessage : string :=
  "Node is either not visible or not an HTMLElement".

(** The pure part of [_clickablePoint], after the two replies have arrived.
    [result] is [None] when the request for the content quads was rejected
    (the rejection is swallowed by [.catch(debugError)]). *)
Definition clickablePointOf
    (result : option (list ProtocolQuad)) (layoutMetrics : LayoutMetrics)
  : Result Point :=
  match result with
  | None => Throw notVisibleMessage
  | Some [] => Throw notVisibleMessage
  | Some rquads =>
      let clientWidth := clientWidth (layoutViewport layoutMetrics) in
      let clientHeight := clientHeight (layoutViewport layoutMetrics) in
      let quads :=
        filter (fun quad => Qgtb (computeQuadArea quad) 1)
          (map (fun quad => _intersectQuadWithViewport quad clientWidth clientHeight)
             (map _fromProtocolQuad rquads)) in
      match quads with
      | [] => Throw notVisibleMessage
      | quad :: _ =>
          let sums :=
            fold_left (fun acc point => (fst acc + x point, snd acc + y point))
              quad (0, 0) in
          Ok (mkPoint (fst sums / 4) (snd sums / 4))
      end
  end.

(** The pure part of [_viewportPointAndScroll]. [model] is [None] when the
    box-model request was rejected. *)
Record PointAndScroll : Type := mkPointAndScroll {
  point : Point; scrollX : Q; scrollY : Q
}.

Definition min4 (a b c d : Q) : Q := Qmin (Qmin (Qmin a b) c) d.
Definition max4 (a b c d : Q) : Q := Qmax (Qmax (Qmax a b) c) d.

Definition viewportPointAndScrollOf
    (model : option BoxModel) (metrics : LayoutMetrics) (relativePoint : Point)
  : PointAndScroll :=
  let point :=
    match model with
    | None => relativePoint
    | Some model =>
        let quad := padding model in
        let x0 := min4 (q0 quad) (q2 quad) (q4 quad) (q6 quad) in
        let y0 := min4 (q1 quad) (q3 quad) (q5 quad) (q7 quad) in
        mkPoint (x0 + x relativePoint) (y0 + y relativePoint)
    end in
  let scrollX := 0 in
  let scrollX := if Qltb (x point) 1 then x point - 1 else scrollX in
  let scrollX :=
    if Qgtb (x point) (clientWidth (layoutViewport metrics) - 1)
    then x point - clientWidth (layoutViewport metrics) + 1 else scrollX in
  let scrollY := 0 in
  let scrollY := if Qltb (y point) 1 then y point - 1 else scrollY in
  let scrollY :=
    if Qgtb (y point) (clientHeight (layoutViewport metrics) - 1)
    then y point - clientHeight (layoutViewport metrics) + 1 else scrollY in
  mkPointAndScroll point scrollX scrollY.

(** ** The page, the browser and the monad of protocol round trips *)

Definition Modifier : Type := string.

(** The viewport of the page: its size, and the remaining properties that
    [Object.assign({}, viewport, newViewport)] carries over unchanged. *)
Record Viewport : Type := mkViewport {
  width : Q;
  height : Q;
  otherProperties : list (string * Q)
}.

Record Rect : Type := mkRect {
  rx : Q; ry : Q; rwidth : Q; rheight : Q
}.

(** The options of [screenshot]; a [clip] given by the caller wins over the
    computed one in [Object.assign({}, {clip}, options)]. *)
Record ScreenshotOptions : Type := mkScreenshotOptions {
  clipOption : option Rect;
  otherOptions : list (string * string)
}.

Record PointerActionOptions : Type := mkPointerActionOptions {
  relativePoint : option Point;
  modifiers : option (list Modifier)
}.

(** Every request an element handle makes to a collaborator. *)
Inductive Request : Type :=
| EvaluateScrollIntoView (pageJavascriptEnabled : bool)
| DOM_getContentQuads
| Page_getLayoutMetrics
| DOM_getBoxModel
| EvaluateScrollBy (scrollX scrollY : Q)
| EnsureModifiers (modifiers : list Modifier)
| PointerAction (point : Point)
| SetViewport (viewport : Viewport)
| PageScreenshot (clip : Rect) (options : ScreenshotOptions).

Definition History : Type := list Request.

(** The collaborators. Every reply may depend on everything requested so far
    (the history passed to a reply ends with the request being answered).
    For an in-page function that returns a message or [false], the reply is
    [Ok (Some message)] or [Ok None]; [Throw] is a rejected request.
    Requests whose rejection is swallowed by [debugError] reply [None]. *)
Record Browser : Type := mkBrowser {
  scrollIntoViewReply : History -> Result (option string);
  contentQuadsReply : History -> option (list ProtocolQuad);
  layoutMetricsReply : History -> Result LayoutMetrics;
  boxModelReply : History -> option BoxModel;
  scrollByReply : History -> Result (option string);
  ensureModifiersReply : History -> Result (list Modifier);
  pointerActionReply : History -> Result unit;
  screenshotReply : History -> Result string
}.

Record Page : Type := mkPage {
  history : History;
  viewport : option Viewport;
  _javascriptEnabled : bool
}.

Definition M (A : Type) : Type := Browser -> Page -> Result A * Page.

Definition ret {A : Type} (a : A) : M A := fun _ page => (Ok a, page).

Definition throw {A : Type} (message : string) : M A :=
  fun _ page => (Throw message, page).

Definition bind {A B : Type} (m : M A) (k : A -> M B) : M B :=
  fun browser page =>
    match m browser page with
    | (Ok a, page') => k a browser page'
    | (Throw message, page') => (Throw message, page')
    end.

Declare Scope m_scope.
Delimit Scope m_scope with M.
Notation "x <- c ;; k" := (bind c (fun x => k))
  (at level 61, c at next level, right associativity) : m_scope.
Notation "c ;;; k" := (bind c (fun _ => k))
  (at level 61, right associativity) : m_scope.

(** Record the request, then read the reply at the extended history. *)
Definition request {A : Type}
    (r : Request) (reply : Browser -> History -> A) : M A :=
  fun browser page =>
    let h := (history page ++ [r])%list in
    (Ok (reply browser h),
     mkPage h (viewport page) (_javascriptEnabled page)).

Definition await {A : Type} (m : M (Result A)) : M A :=
  bind m (fun r => match r with Ok a => ret a | Throw e => throw e end).

Definition liftResult {A : Type} (r : Result A) : M A :=
  match r with Ok a => ret a | Throw e => throw e end.

(** Modelled from the spec: [helper.assert] is not among the sources; a
    failed assertion fails the operation with the given message. *)
Definition assert (value : bool) (message : string) : M unit :=
  if value then ret tt else throw message.

(** Modelled from the spec: the page collaborator is not among the sources;
    it supplies the current viewport size and viewport mutation.
    [viewport()] reads the current viewport and [setViewport] replaces it;
    the request is recorded and is taken to succeed. *)
Definition pageViewport : M (option Viewport) :=
  fun _ page => (Ok (viewport page), page).

Definition pageJavascriptEnabled : M bool :=
  fun _ page => (Ok (_javascriptEnabled page), page).

Definition setViewport (v : Viewport) : M unit :=
  fun _ page =>
    (Ok tt,
     mkPage (history page ++ [SetViewport v])%list (Some v)
            (_javascriptEnabled page)).

(** A returned message is raised when it is truthy, that is, not empty. *)
Definition raiseIfMessage (error : option string) : M unit :=
  match error with
  | Some message => if String.eqb message EmptyString then ret tt else throw message
  | None => ret tt
  end.

Local Open Scope m_scope.

(** [_scrollIntoViewIfNeeded] *)
Definition _scrollIntoViewIfNeeded : M unit :=
  enabled <- pageJavascriptEnabled ;;
  error <- await (request (EvaluateScrollIntoView enabled) scrollIntoViewReply) ;;
  raiseIfMessage error.

(** [_clickablePoint]: both requests are sent before either is awaited. *)
Definition _clickablePoint : M Point :=
  result <- request DOM_getContentQuads contentQuadsReply ;;
  layoutMetrics <- await (request Page_getLayoutMetrics layoutMetricsReply) ;;
  liftResult (clickablePointOf result layoutMetrics).

(** [_getBoxModel] *)
Definition _getBoxModel : M (option BoxModel) :=
  request DOM_getBoxModel boxModelReply.

(** [_viewportPointAndScroll] *)
Definition _viewportPointAndScroll (relativePoint : Point) : M PointAndScroll :=
  model <- _getBoxModel ;;
  metrics <- await (request Page_getLayoutMetrics layoutMetricsReply) ;;
  ret (viewportPointAndScrollOf model metrics relativePoint).

(** Truthiness of a number: not zero. *)
Definition truthy (q : Q) : bool := negb (Qeq_bool q 0).

(** [_performPointerAction] *)
Definition _performPointerAction (options : option PointerActionOptions) : M unit :=
  _scrollIntoViewIfNeeded ;;;
  point <-
    match match options with Some o => relativePoint o | None => None end with
    | Some relativePoint =>
        r <- _viewportPointAndScroll relativePoint ;;
        r <-
          (if truthy (scrollX r) || truthy (scrollY r) then
             error <- await (request (EvaluateScrollBy (scrollX r) (scrollY r))
                               scrollByReply) ;;
             raiseIfMessage error ;;;
             r <- _viewportPointAndScroll relativePoint ;;
             (if truthy (scrollX r) || truthy (scrollY r)
              then throw "Failed to scroll relative point into viewport"
              else ret r)
           else ret r) ;;
        ret (point r)
    | None =>
        _scrollIntoViewIfNeeded ;;;
        _clickablePoint
    end ;;
  restoreModifiers <-
    match match options with Some o => modifiers o | None => None end with
    | Some ms =>
        restore <- await (request (EnsureModifiers ms) ensureModifiersReply) ;;
        ret (Some restore)
    | None => ret None
    end ;;
  await (request (PointerAction point) pointerActionReply) ;;;
  match restoreModifiers with
  | Some restore =>
      await (request (EnsureModifiers restore) ensureModifiersReply) ;;; ret tt
  | None => ret tt
  end.

(** [boundingBox] *)
Definition boundingBox : M (option Rect) :=
  result <- _getBoxModel ;;
  match result with
  | None => ret None
  | Some result =>
      let quad := border result in
      let x := min4 (q0 quad) (q2 quad) (q4 quad) (q6 quad) in
      let y := min4 (q1 quad) (q3 quad) (q5 quad) (q7 quad) in
      let width := max4 (q0 quad) (q2 quad) (q4 quad) (q6 quad) - x in
      let height := max4 (q1 quad) (q3 quad) (q5 quad) (q7 quad) - y in
      ret (Some (mkRect x y width height))
  end.

Definition ceil (q : Q) : Q := inject_Z (Qceiling q).

(** [screenshot] *)
Definition screenshot (options : ScreenshotOptions) : M string :=
  boundingBox0 <- boundingBox ;;
  match boundingBox0 with
  | None => throw notVisibleMessage
  | Some boundingBox0 =>
      viewport <- pageViewport ;;
      needsViewportReset <-
        match viewport with
        | Some viewport =>
            if Qgtb (rwidth boundingBox0) (width viewport)
               || Qgtb (rheight boundingBox0) (height viewport)
            then
              setViewport
                (mkViewport (Qmax (width viewport) (ceil (rwidth boundingBox0)))
                            (Qmax (height viewport) (ceil (rheight boundingBox0)))
                            (otherProperties viewport)) ;;;
              ret true
            else ret false
        | None => ret false
        end ;;
      _scrollIntoViewIfNeeded ;;;
      boundingBox1 <- boundingBox ;;
      match boundingBox1 with
      | None => throw notVisibleMessage
      | Some boundingBox1 =>
          assert (truthy (rwidth boundingBox1)) "Node has 0 width." ;;;
          assert (truthy (rheight boundingBox1)) "Node has 0 height." ;;;
          metrics <- await (request Page_getLayoutMetrics layoutMetricsReply) ;;
          let clip :=
            mkRect (rx boundingBox1 + pageX (layoutViewport metrics))
                   (ry boundingBox1 + pageY (layoutViewport metrics))
                   (rwidth boundingBox1) (rheight boundingBox1) in
          let clip :=
            match clipOption options with Some c => c | None => clip end in
          imageData <- await (request (PageScreenshot clip options) screenshotReply) ;;
          match needsViewportReset, viewport with
          | true, Some viewport => setViewport viewport
          | _, _ => ret tt
          end ;;;
          ret imageData
      end
  end.

Local Close Scope m_scope.

(** ** JavaScript values that the code inspects dynamically *)

Local Open Scope string_scope.

(** Numbers as [Object.is] tells them apart. [NInt z] is a finite number with
    an integer value (below [10^21] in size, where [ToString] prints plain
    decimal digits); [+0] is [NInt 0]. *)
Inductive JsNumber : Type :=
| NInt (z : Z)
| NNegZero
| NInfinity
| NNegInfinity
| NNaN.

#[warnings="-register-all"]
Inductive JsVal : Type :=
| VUndefined
| VNull
| VBoolean (b : bool)
| VNumber (n : JsNumber)
| VBigInt (z : Z)
| VString (s : string)
| VObject (properties : list (string * JsVal)).

Definition decimal (z : Z) : string := NilZero.string_of_int (Z.to_int z).


(** The string a value contributes to a concatenation with [+]. *)
Definition toString (v : JsVal) : string :=
  match v with
  | VUndefined => "undefined"
  | VNull => "null"
  | VBoolean true => "true"
  | VBoolean false => "false"
  | VNumber (NInt z) => decimal z
  | VNumber NNegZero => "0"
  | VNumber NInfinity => "Infinity"
  | VNumber NNegInfinity => "-Infinity"
  | VNumber NNaN => "NaN"
  | VBigInt z => decimal z
  | VString s => s
  | VObject _ => "[object Object]"
  end.


(** ** Strings *)

Definition startsWith (s p : string) : bool := String.prefix p s.

Fixpoint includes (s sub : string) : bool :=
  String.prefix sub s ||
  match s with
  | EmptyString => false
  | String _ s' => includes s' sub
  end.

Fixpoint endsWith (s suffix : string) : bool :=
  String.eqb s suffix ||
  match s with
  | EmptyString => false
  | String _ s' => endsWith s' suffix
  end.

(** [s.substring(n)] *)
Definition substringFrom (n : nat) (s : string) : string :=
  String.substring n (String.length s - n) s.

(** ** Remote objects and handles *)

Record RemoteObject : Type := mkRemoteObject {
  type : string;
  subtype : option string;
  objectId : option string;
  value : JsVal;
  unserializableValue : option string
}.

Definition ContextId : Type := nat.

(** A [js.JSHandle]; [isElementHandle] tells an [ElementHandle] instance. *)
Record JSHandle : Type := mkJSHandle {
  _context : ContextId;
  _disposed : bool;
  toRemoteObject : RemoteObject;
  isElementHandle : bool
}.

(** What a caller can pass to [evaluate] or to [select]. *)
Inductive Argument : Type :=
| Plain (v : JsVal)
| Handle (h : JSHandle).

(** A [Runtime.CallArgument]. *)
Inductive CallArgument : Type :=
| CallUnserializable (unserializableValue : string)
| CallValue (value : JsVal)
| CallObjectId (objectId : string).

(** Truthiness of an optional string property. *)
Definition present (s : option string) : bool :=
  match s with
  | Some s => negb (String.eqb s EmptyString)
  | None => false
  end.

Definition crossContextMessage : string :=
  "JSHandles can be evaluated only in the context they were created!".
Definition disposedMessage : string := "JSHandle is disposed!".

(** [convertArgument], a closure over the [context] of the evaluation. *)
Definition convertArgument (context : ContextId) (arg : Argument)
  : Result CallArgument :=
  match arg with
  | Plain (VBigInt z) => Ok (CallUnserializable (decimal z ++ "n"))
  | Plain (VNumber NNegZero) => Ok (CallUnserializable "-0")
  | Plain (VNumber NInfinity) => Ok (CallUnserializable "Infinity")
  | Plain (VNumber NNegInfinity) => Ok (CallUnserializable "-Infinity")
  | Plain (VNumber NNaN) => Ok (CallUnserializable "NaN")
  | Handle objectHandle =>
      if negb (Nat.eqb (_context objectHandle) context) then
        Throw crossContextMessage
      else if _disposed objectHandle then
        Throw disposedMessage
      else
        let remoteObject := toRemoteObject objectHandle in
        if present (unserializableValue remoteObject) then
          Ok (CallUnserializable
                (match unserializableValue remoteObject with
                 | Some s => s | None => EmptyString end))
        else if negb (present (objectId remoteObject)) then
          Ok (CallValue (value remoteObject))
        else
          Ok (CallObjectId
                (match objectId remoteObject with
                 | Some s => s | None => EmptyString end))
  | Plain v => Ok (CallValue v)
  end.

(** [args.map(convertArgument)]: the first failing conversion throws. *)
Fixpoint convertArguments (context : ContextId) (args : list Argument)
  : Result (list CallArgument) :=
  match args with
  | [] => Ok []
  | arg :: rest =>
      match convertArgument context arg with
      | Throw e => Throw e
      | Ok a =>
          match convertArguments context rest with
          | Throw e => Throw e
          | Ok l => Ok (a :: l)
          end
      end
  end.

(** ** [rewriteError] *)

Record EvaluateReturnValue : Type := mkEvaluateReturnValue {
  result : RemoteObject;
  exceptionDetails : option string
}.

Definition undefinedRemoteObject : RemoteObject :=
  mkRemoteObject "undefined" None None VUndefined None.

Definition contextDestroyedMessage : string :=
  "Execution context was destroyed, most likely because of a navigation.".

(** The rejection is an error with the given [message]; [Throw message]
    with the same message is the same error thrown again. *)
Definition rewriteError (message : string) : Result EvaluateReturnValue :=
  if includes message "Object reference chain is too long" then
    Ok (mkEvaluateReturnValue undefinedRemoteObject None)
  else if includes message "Object couldn't be returned by value" then
    Ok (mkEvaluateReturnValue undefinedRemoteObject None)
  else if endsWith message "Cannot find context with specified id"
          || endsWith message "Inspected target navigated or closed" then
    Throw contextDestroyedMessage
  else Throw message.

(** ** Serializing the function passed to [evaluate] *)

Definition notSerializableMessage : string :=
  "Passed function is not well-serializable!".

(** The one rewrite of the [catch (e1)] block. *)
Definition rewriteFunctionText (functionText : string) : string :=
  if startsWith functionText "async " then
    "async function " ++ substringFrom (String.length "async ") functionText
  else
    "function " ++ functionText.

(** [parses text] tells whether [new Function(text)] returns, for the
    JavaScript parser of the host. The result comes with the list of texts
    handed to the parser, in order. *)
Definition serializeFunction (parses : string -> bool) (functionText : string)
  : Result string * list string :=
  let first := "(" ++ functionText ++ ")" in
  if parses first then (Ok functionText, [first])
  else
    let functionText := rewriteFunctionText functionText in
    let second := "(" ++ functionText ++ ")" in
    if parses second then (Ok functionText, [first; second])
    else (Throw notSerializableMessage, [first; second]).

(** ** [select] *)





(** The double-quote character that the messages put around a value. *)
Definition doubleQuote : string := String (ascii_of_nat 34) EmptyString.






(** ** Vocabulary of the geometric properties *)

Local Open Scope Q_scope.








(** A protocol quad as [_clickablePoint] looks at it: as four points, each
    clipped to the layout viewport of [metrics]. *)
Definition clippedQuad (metrics : LayoutMetrics) (quad : ProtocolQuad) : list Point :=
  _intersectQuadWithViewport (_fromProtocolQuad quad)
    (clientWidth (layoutViewport metrics)) (clientHeight (layoutViewport metrics)).


(** [m] is the least of the numbers [l]. *)
Definition leastOf (m : Q) (l : list Q) : Prop :=
  Exists (fun a => m == a) l /\ Forall (fun a => m <= a) l.


(** Concrete data of the scenarios. *)
Definition viewport800x600 : LayoutMetrics :=
  mkLayoutMetrics (mkLayoutViewport 0 0 800 600).

Definition tinyQuad : ProtocolQuad := mkProtocolQuad 0 0 1 0 1 1 0 1.
Definition bigQuad : ProtocolQuad := mkProtocolQuad 10 10 30 10 30 20 10 20.

(** A box model whose padding quad has its least corner at (500, 500). *)
Definition boxAt500 : BoxModel :=
  mkBoxModel (mkProtocolQuad 500 500 600 500 600 550 500 550)
             (mkProtocolQuad 499 499 601 499 601 551 499 551).

(** ** Vocabulary of the properties of the request history *)

Definition isScrollIntoView (r : Request) : bool :=
  match r with EvaluateScrollIntoView _ => true | _ => false end.

Definition scrollIntoViewCount (h : History) : nat :=
  List.length (filter isScrollIntoView h).

(** The in-page function reported no error: it returned [false], or a
    string that is not truthy. *)
Definition reportsNoError (reply : Result (option string)) : bool :=
  match reply with
  | Ok None => true
  | Ok (Some message) => String.eqb message EmptyString
  | Throw _ => false
  end.

(** A browser in which everything goes well: the element has the content
    quad [bigQuad] in a viewport of 800 x 600. *)
Definition quietBrowser : Browser :=
  mkBrowser
    (fun _ => Ok None)
    (fun _ => Some [bigQuad])
    (fun _ => Ok viewport800x600)
    (fun _ => Some boxAt500)
    (fun _ => Ok None)
    (fun _ => Ok [])
    (fun _ => Ok tt)
    (fun _ => Ok "image").

Definition freshPage : Page :=
  mkPage [] (Some (mkViewport 800 600 [])) true.

(** An element that is wider than the viewport of [freshPage]. *)
Definition wideBox : BoxModel :=
  mkBoxModel (mkProtocolQuad 1 1 999 1 999 49 1 49)
             (mkProtocolQuad 0 0 1000 0 1000 50 0 50).

Definition noOptions : ScreenshotOptions := mkScreenshotOptions None [].

(** The browser shows the wide element and captures it. *)
Definition wideBrowser : Browser :=
  mkBrowser
    (fun _ => Ok None)
    (fun _ => Some [bigQuad])
    (fun _ => Ok viewport800x600)
    (fun _ => Some wideBox)
    (fun _ => Ok None)
    (fun _ => Ok [])
    (fun _ => Ok tt)
    (fun _ => Ok "image").



(** The number that a string of decimal digits denotes, if it is one. *)
Definition denotes (s : string) : option Z :=
  option_map Z.of_int (NilZero.int_of_string s).

(** A parser that accepts what begins as a parenthesized function
    expression, for the scenarios. *)
Definition sampleParser (text : string) : bool :=
  String.prefix "(function " text || String.prefix "(async function " text.

(** ** Vocabulary of the properties of [rewriteError] *)

Definition contains (message sub : string) : Prop :=
  exists before after : string, message = (before ++ sub ++ after)%string.

Definition endsIn (message suffix : string) : Prop :=
  exists before : string, message = (before ++ suffix)%string.

(** The two messages that stand for a value too deep or too large. *)
Definition benign (message : string) : Prop :=
  contains message "Object reference chain is too long" \/
  contains message "Object couldn't be returned by value".

(** The two messages that stand for a context that is gone. *)
Definition contextGone (message : string) : Prop :=
  endsIn message "Cannot find context with specified id" \/
  endsIn message "Inspected target navigated or closed".

(** Handles for the scenarios: one per shape of the remote object. *)
Definition objectRemote : RemoteObject :=
  mkRemoteObject "object" (Some "node") (Some "{injectedScriptId:1,id:7}")
    VUndefined None.
Definition inlineRemote : RemoteObject :=
  mkRemoteObject "string" None None (VString "hello") None.
Definition unserializableRemote : RemoteObject :=
  mkRemoteObject "number" None None VUndefined (Some "NaN").

(** The values that [convertArgument] does not pass by value. *)
Definition isUnserializable (v : JsVal) : bool :=
  match v with
  | VBigInt _ => true
  | VNumber NNegZero | VNumber NInfinity
  | VNumber NNegInfinity | VNumber NNaN => true
  | _ => false
  end.


Definition byValue (v : JsVal) : Argument := Plain (VObject [("value", v)]).





(** ** Vocabulary of the further geometric properties *)

(** The point lies in the viewport of the given size. *)
Definition inViewport (width height : Q) (p : Point) : Prop :=
  0 <= x p <= width /\ 0 <= y p <= height.





(** ** Vocabulary of the further properties of the request history *)

Definition countWhere (f : Request -> bool) (h : History) : nat :=
  List.length (filter f h).

Definition isScrollBy (r : Request) : bool :=
  match r with EvaluateScrollBy _ _ => true | _ => false end.

Definition isGetBoxModel (r : Request) : bool :=
  match r with DOM_getBoxModel => true | _ => false end.

Definition isGetContentQuads (r : Request) : bool :=
  match r with DOM_getContentQuads => true | _ => false end.

Definition isPointerAction (r : Request) : bool :=
  match r with PointerAction _ => true | _ => false end.

Definition isSetViewport (r : Request) : bool :=
  match r with SetViewport _ => true | _ => false end.

(** The requests before and after the first pointer action, with its
    point. *)
Fixpoint splitAtAction (h : History) : option (History * Point * History) :=
  match h with
  | [] => None
  | PointerAction p :: after => Some ([], p, after)
  | r :: rest =>
      match splitAtAction rest with
      | Some (before, p, after) => Some (r :: before, p, after)
      | None => None
      end
  end.

Definition relativePointOf (options : option PointerActionOptions) : option Point :=
  match options with Some o => relativePoint o | None => None end.

Definition modifiersOf (options : option PointerActionOptions)
  : option (list Modifier) :=
  match options with Some o => modifiers o | None => None end.


(** A click at an offset of (5, 5), holding Shift. *)
Definition relativeShiftClick : option PointerActionOptions :=
  Some (mkPointerActionOptions (Some (mkPoint 5 5)) (Some ["Shift"%string])).

(** The element is detached: the scroll evaluation returns its message. *)
Definition detachedBrowser : Browser :=
  mkBrowser
    (fun _ => Ok (Some "Node is detached from document"%string))
    (fun _ => None)
    (fun _ => Ok viewport800x600)
    (fun _ => None)
    (fun _ => Ok None)
    (fun _ => Ok [])
    (fun _ => Ok tt)
    (fun _ => Ok "image"%string).

(** Everything goes well, except that the pointer action is rejected. *)
Definition actionFailsBrowser : Browser :=
  mkBrowser
    (fun _ => Ok None)
    (fun _ => Some [bigQuad])
    (fun _ => Ok viewport800x600)
    (fun _ => Some boxAt500)
    (fun _ => Ok None)
    (fun _ => Ok ["Alt"%string])
    (fun _ => Throw "Protocol error (Input.dispatchMouseEvent): Target closed."%string)
    (fun _ => Ok "image"%string).

(** A click at an offset that the page of [quietBrowser] never brings into
    the viewport. *)
Definition farClick : option PointerActionOptions :=
  Some (mkPointerActionOptions (Some (mkPoint 400 (-(700)))) None).

(** The element, as first measured, fits the viewport of the page (or the
    page has no viewport, or the element has no box). *)
Definition fitsViewport (browser : Browser) (page : Page) : Prop :=
  match viewport page, fst (boundingBox browser page) with
  | Some current, Ok (Some box) =>
      rwidth box <= width current /\ rheight box <= height current
  | _, _ => True
  end.

(** The viewport [v] is at least as large as [current] and as [box], and
    has the other properties of [current]. *)
Definition covers (v current : Viewport) (box : Rect) : Prop :=
  width current <= width v /\ rwidth box <= width v /\
  height current <= height v /\ rheight box <= height v /\
  otherProperties v = otherProperties current.

(** ** Creating handles, evaluating, enumerating properties *)

Local Open Scope string_scope.

Definition FrameId : Type := string.

(** An execution context: its identity and its frame, if it has one. *)
Record ExecutionContext : Type := mkExecutionContext {
  contextId : ContextId;
  frame : option FrameId
}.

(** [createJSHandle]. Modelled from the spec: the constructor of
    [js.JSHandle] is not among the sources; a new handle belongs to its
    context and is not disposed. *)
Definition createJSHandle (context : ExecutionContext) (remoteObject : RemoteObject)
  : JSHandle :=
  match subtype remoteObject, frame context with
  | Some kind, Some _ =>
      if String.eqb kind "node"
      then mkJSHandle (contextId context) false remoteObject true
      else mkJSHandle (contextId context) false remoteObject false
  | _, _ => mkJSHandle (contextId context) false remoteObject false
  end.

(** [markJSHandle] *)
Definition markJSHandle (handle : JSHandle) (remoteObject : RemoteObject) : JSHandle :=
  mkJSHandle (_context handle) (_disposed handle) remoteObject
    (isElementHandle handle).

Definition newline : string := String (ascii_of_nat 10) EmptyString.

Definition EVALUATION_SCRIPT_URL : string := "__playwright_evaluation_script__".

(** What [evaluate] is given as [pageFunction]: a string, a function (with
    the text that [toString] gives), or anything else. *)
Inductive PageFunction : Type :=
| PageString (expression : string)
| PageFunctionText (functionText : string)
| PageOther (v : JsVal).

(** The two requests that [evaluate] sends. *)
Inductive RuntimeRequest : Type :=
| Runtime_evaluate
    (expression : string) (contextId : ContextId)
    (returnByValue awaitPromise userGesture : bool)
| Runtime_callFunctionOn
    (functionDeclaration : string) (executionContextId : ContextId)
    (arguments : list CallArgument)
    (returnByValue awaitPromise userGesture : bool).

Inductive Evaluated : Type :=
| ByValue (v : JsVal)
| ByHandle (h : JSHandle).

Section Evaluate.

(** What the host and the helpers that are not among the sources do:
    whether [new Function(text)] returns, whether [SOURCE_URL_REGEX]
    matches, the reply of the session to a request ([Throw] is a
    rejection), and [valueFromRemoteObject] and [getExceptionMessage]. *)
Variable parses : string -> bool.
Variable hasSourceURL : string -> bool.
Variable send : RuntimeRequest -> Result EvaluateReturnValue.
Variable valueFromRemoteObject : RemoteObject -> JsVal.
Variable getExceptionMessage : string -> string.

(** The common end of both paths of [evaluate], from [.catch(rewriteError)]
    on. *)
Definition finishEvaluate
    (context : ExecutionContext) (returnByValue : bool) (request : RuntimeRequest)
  : Result Evaluated * list RuntimeRequest :=
  let reply :=
    match send request with
    | Ok reply => Ok reply
    | Throw message => rewriteError message
    end in
  match reply with
  | Throw e => (Throw e, [request])
  | Ok reply =>
      match exceptionDetails reply with
      | Some details =>
          (Throw ("Evaluation failed: " ++ getExceptionMessage details), [request])
      | None =>
          (Ok (if returnByValue
               then ByValue (valueFromRemoteObject (result reply))
               else ByHandle (createJSHandle context (result reply))),
           [request])
      end
  end.

(** [evaluate]: the result, and the requests sent to the session. *)
Definition evaluate
    (context : ExecutionContext) (returnByValue : bool)
    (pageFunction : PageFunction) (args : list Argument)
  : Result Evaluated * list RuntimeRequest :=
  let suffix := "//# sourceURL=" ++ EVALUATION_SCRIPT_URL in
  match pageFunction with
  | PageString expression =>
      let expressionWithSourceUrl :=
        if hasSourceURL expression then expression
        else expression ++ newline ++ suffix in
      finishEvaluate context returnByValue
        (Runtime_evaluate expressionWithSourceUrl (contextId context)
           returnByValue true true)
  | PageOther v =>
      (Throw ("Expected to get |string| or |function| as the first argument, but got "
                ++ doubleQuote ++ toString v ++ doubleQuote ++ " instead."), [])
  | PageFunctionText functionText =>
      match fst (serializeFunction parses functionText) with
      | Throw e => (Throw e, [])
      | Ok functionText =>
          match convertArguments (contextId context) args with
          | Throw e => (Throw e, [])
          | Ok arguments =>
              finishEvaluate context returnByValue
                (Runtime_callFunctionOn
                   (functionText ++ newline ++ suffix ++ newline)
                   (contextId context) arguments returnByValue true true)
          end
      end
  end.

End Evaluate.






(** ** [fill] *)




(** ** Vocabulary of the properties of argument conversion *)

(** An argument that [convertArgument] accepts in the context: every plain
    value, and a handle of this context that is not disposed. *)
Definition accepted (context : ContextId) (arg : Argument) : Prop :=
  match arg with
  | Plain _ => True
  | Handle h => _context h = context /\ _disposed h = false
  end.

(** Data of the scenarios of [evaluate]. *)
Definition liveNode : JSHandle := mkJSHandle 1%nat false objectRemote true.
Definition disposedNode : JSHandle := mkJSHandle 1%nat true objectRemote true.
Definition foreignNode : JSHandle := mkJSHandle 2%nat false objectRemote true.

Definition mainContext : ExecutionContext := mkExecutionContext 1%nat (Some "frame-1"%string).

(** A session that answers every request with the node [objectRemote]. *)
Definition nodeSession (_ : RuntimeRequest) : Result EvaluateReturnValue :=
  Ok (mkEvaluateReturnValue objectRemote None).

(** A session whose target has navigated. *)
Definition navigatedSession (_ : RuntimeRequest) : Result EvaluateReturnValue :=
  Throw "Protocol error (Runtime.callFunctionOn): Inspected target navigated or closed"%string.



(** * Properties *)

Local Open Scope list_scope.
Local Open Scope Q_scope.

(** ** Comparisons *)

Lemma Qltb_true (a b : Q) : Qltb a b = true <-> a < b.
Proof.
  unfold Qltb. rewrite Qlt_alt. destruct (a ?= b); split; congruence.
Qed.

Lemma Qltb_false (a b : Q) : Qltb a b = false <-> b <= a.
Proof.
  unfold Qltb. rewrite Qle_alt, <- Qgt_alt, Qlt_alt.
  destruct (a ?= b) eqn:E; split; congruence.
Qed.

Lemma Qgtb_true (a b : Q) : Qgtb a b = true <-> b < a.
Proof. apply Qltb_true. Qed.

Lemma Qgtb_false (a b : Q) : Qgtb a b = false <-> a <= b.
Proof. apply Qltb_false. Qed.

(** ** The area of a quad *)











(** ** The clickable point *)


Lemma clippedQuad_four (metrics : LayoutMetrics) (quad : ProtocolQuad) :
  exists a b c d : Point, clippedQuad metrics quad = [a; b; c; d].
Proof. unfold clippedQuad, _fromProtocolQuad. cbn. eauto. Qed.


Lemma clickablePointOf_filtered (metrics : LayoutMetrics) (quads : list ProtocolQuad) :
  quads <> [] ->
  clickablePointOf (Some quads) metrics =
  match filter (fun quad => Qgtb (computeQuadArea quad) 1)
          (map (clippedQuad metrics) quads) with
  | [] => Throw notVisibleMessage
  | quad :: _ =>
      let sums :=
        fold_left (fun acc point => (fst acc + x point, snd acc + y point))
          quad (0, 0) in
      Ok (mkPoint (fst sums / 4) (snd sums / 4))
  end.
Proof.
  destruct quads as [|quad quads]; [congruence|]. intros _.
  unfold clickablePointOf. rewrite map_map. reflexivity.
Qed.






(** ** Resolving a relative point *)

Lemma Qmin_least (a b : Q) : leastOf (Qmin a b) [a; b].
Proof.
  split.
  - destruct (Q.min_spec a b) as [[_ E]|[_ E]].
    + apply Exists_cons_hd. exact E.
    + apply Exists_cons_tl, Exists_cons_hd. exact E.
  - repeat constructor; [apply Q.le_min_l | apply Q.le_min_r].
Qed.

Lemma min4_least (a b c d : Q) : leastOf (min4 a b c d) [a; b; c; d].
Proof.
  unfold min4. split.
  - destruct (Q.min_spec (Qmin (Qmin a b) c) d) as [[_ E]|[_ E]];
      [|do 3 apply Exists_cons_tl; apply Exists_cons_hd; exact E].
    destruct (Q.min_spec (Qmin a b) c) as [[_ E1]|[_ E1]];
      [|do 2 apply Exists_cons_tl; apply Exists_cons_hd; lra].
    destruct (Q.min_spec a b) as [[_ E2]|[_ E2]];
      [apply Exists_cons_hd | apply Exists_cons_tl, Exists_cons_hd]; lra.
  - pose proof (Q.le_min_l (Qmin (Qmin a b) c) d).
    pose proof (Q.le_min_r (Qmin (Qmin a b) c) d).
    pose proof (Q.le_min_l (Qmin a b) c).
    pose proof (Q.le_min_r (Qmin a b) c).
    pose proof (Q.le_min_l a b).
    pose proof (Q.le_min_r a b).
    repeat constructor; lra.
Qed.

(** The least of some numbers is determined up to [==]. *)
Lemma leastOf_unique (m m' : Q) (l : list Q) :
  leastOf m l -> leastOf m' l -> m == m'.
Proof.
  intros [Hin Hle] [Hin' Hle'].
  rewrite Exists_exists in Hin, Hin'. rewrite Forall_forall in Hle, Hle'.
  destruct Hin as (a & Ha & Ea), Hin' as (a' & Ha' & Ea').
  pose proof (Hle a' Ha'). pose proof (Hle' a Ha). lra.
Qed.

(** [_viewportPointAndScroll] asks for the box model, then for the layout
    metrics, and computes its result from the two replies. *)
Lemma _viewportPointAndScroll_run
    (browser : Browser) (page : Page) (relativePoint : Point) (metrics : LayoutMetrics) :
  let h1 := history page ++ [DOM_getBoxModel] in
  let h2 := h1 ++ [Page_getLayoutMetrics] in
  layoutMetricsReply browser h2 = Ok metrics ->
  _viewportPointAndScroll relativePoint browser page
  = (Ok (viewportPointAndScrollOf (boxModelReply browser h1) metrics relativePoint),
     mkPage h2 (viewport page) (_javascriptEnabled page)).
Proof.
  intros h1 h2 Hmetrics.
  unfold _viewportPointAndScroll, _getBoxModel, await, bind, request, ret.
  cbn [history viewport _javascriptEnabled].
  fold h1. fold h2. rewrite Hmetrics. reflexivity.
Qed.

Lemma no_scroll_inside (p : Q) (extent : Q) :
  1 <= p <= extent - 1 ->
  (if Qgtb p (extent - 1) then p - extent + 1
   else if Qltb p 1 then p - 1 else 0) = 0.
Proof.
  intros [Hlow Hhigh].
  apply Qgtb_false in Hhigh. apply Qltb_false in Hlow.
  rewrite Hhigh, Hlow. reflexivity.
Qed.

(** C8. The resolved point is the least x and the least y of the padding
    quad plus the relative offset, or the relative point itself without a box
    model; both scroll deltas are zero whenever the point lies in
    [1, clientWidth - 1] x [1, clientHeight - 1]; and with the least corner
    at (500, 500), the offset (5, 5) and a viewport of 800 x 600 the result
    is the point (505, 505) with scroll delta (0, 0). *)
Theorem viewportPointAndScroll_resolution :
  forall (metrics : LayoutMetrics) (relativePoint : Point),
    (forall (browser : Browser) (page : Page),
        let h1 := history page ++ [DOM_getBoxModel] in
        let h2 := h1 ++ [Page_getLayoutMetrics] in
        layoutMetricsReply browser h2 = Ok metrics ->
        fst (_viewportPointAndScroll relativePoint browser page)
        = Ok (viewportPointAndScrollOf (boxModelReply browser h1) metrics
                relativePoint)) /\
    (forall (model : BoxModel) (mx my : Q),
        let quad := padding model in
        leastOf mx [q0 quad; q2 quad; q4 quad; q6 quad] ->
        leastOf my [q1 quad; q3 quad; q5 quad; q7 quad] ->
        point_eq (point (viewportPointAndScrollOf (Some model) metrics relativePoint))
                 (mkPoint (mx + x relativePoint) (my + y relativePoint))) /\
    point (viewportPointAndScrollOf None metrics relativePoint) = relativePoint /\
    (forall model : option BoxModel,
        let r := viewportPointAndScrollOf model metrics relativePoint in
        1 <= x (point r) <= clientWidth (layoutViewport metrics) - 1 ->
        1 <= y (point r) <= clientHeight (layoutViewport metrics) - 1 ->
        scrollX r = 0 /\ scrollY r = 0) /\
    viewportPointAndScrollOf (Some boxAt500) viewport800x600 (mkPoint 5 5)
    = mkPointAndScroll (mkPoint 505 505) 0 0.
Proof.
  intros metrics relativePoint. split; [|split; [|split; [|split]]].
  - intros browser page h1 h2 Hmetrics.
    rewrite (_viewportPointAndScroll_run browser page relativePoint metrics Hmetrics).
    reflexivity.
  - intros model mx my quad Hmx Hmy. split.
    + cbn [viewportPointAndScrollOf point x].
      apply Qplus_comp; [|reflexivity].
      exact (leastOf_unique _ _ _ (min4_least _ _ _ _) Hmx).
    + cbn [viewportPointAndScrollOf point y].
      apply Qplus_comp; [|reflexivity].
      exact (leastOf_unique _ _ _ (min4_least _ _ _ _) Hmy).
  - reflexivity.
  - intros model r Hx Hy. split.
    + exact (no_scroll_inside _ _ Hx).
    + exact (no_scroll_inside _ _ Hy).
  - reflexivity.
Qed.

(** C8 at the scenario of the padding quad with least corner (500, 500). *)
Lemma viewportPointAndScroll_resolution_witness :
  point_eq
    (point (viewportPointAndScrollOf (Some boxAt500) viewport800x600 (mkPoint 5 5)))
    (mkPoint (500 + 5) (500 + 5)) /\
  scrollX (viewportPointAndScrollOf (Some boxAt500) viewport800x600 (mkPoint 5 5)) = 0 /\
  scrollY (viewportPointAndScrollOf (Some boxAt500) viewport800x600 (mkPoint 5 5)) = 0.
Proof.
  destruct (viewportPointAndScroll_resolution viewport800x600 (mkPoint 5 5))
    as (_ & Hpoint & _ & Hscroll & _).
  split.
  - apply (Hpoint boxAt500 500 500); split.
    + apply Exists_cons_hd. reflexivity.
    + repeat constructor; vm_compute; discriminate.
    + apply Exists_cons_hd. reflexivity.
    + repeat constructor; vm_compute; discriminate.
  - apply (Hscroll (Some boxAt500)); split; vm_compute; discriminate.
Defined.

(** ** Pointer actions *)

Ltac unfold_M :=
  unfold raiseIfMessage, liftResult, assert, await in *;
  unfold request, pageJavascriptEnabled, pageViewport, setViewport in *;
  unfold bind, ret, throw in *;
  cbn [history viewport _javascriptEnabled fst snd] in *.

(** Split on the next reply that the run inspects. *)
Ltac split_reply :=
  match goal with
  | |- context [match ?reply with Ok _ => _ | Throw _ => _ end] =>
      destruct reply eqn:?
  | |- context [match ?reply with Some _ => _ | None => _ end] =>
      destruct reply eqn:?
  | |- context [if ?b then _ else _] => destruct b eqn:?
  end; cbn [history viewport _javascriptEnabled fst snd] in *.

(** C10. In a pointer action without a relative point, the requests made are
    such that whenever the clickable point is computed (the content quads are
    requested), exactly two scroll-into-view evaluations were made, both
    before it: the requests start with the two scroll evaluations followed by
    the two requests of the clickable point, and no further scroll
    evaluation follows. The second scroll evaluation and the clickable point
    are reached whenever the scroll evaluations report no error. *)
Theorem performPointerAction_default_scrolls_twice
    (browser : Browser) (page : Page) (options : option PointerActionOptions) :
  match options with Some o => relativePoint o | None => None end = None ->
  let scroll := EvaluateScrollIntoView (_javascriptEnabled page) in
  exists requests : History,
    history (snd (_performPointerAction options browser page))
    = history page ++ requests /\
    (In DOM_getContentQuads requests ->
     exists tail : History,
       requests
       = scroll :: scroll :: DOM_getContentQuads :: Page_getLayoutMetrics :: tail /\
       scrollIntoViewCount tail = 0%nat) /\
    (reportsNoError (scrollIntoViewReply browser (history page ++ [scroll])) = true ->
     reportsNoError (scrollIntoViewReply browser (history page ++ [scroll; scroll])) = true ->
     In DOM_getContentQuads requests).
Proof.
  intros Hdefault scroll.
  unfold _performPointerAction. rewrite Hdefault. clear Hdefault.
  unfold _scrollIntoViewIfNeeded, _clickablePoint.
  unfold_M. fold scroll.
  repeat split_reply;
    rewrite <- ?app_assoc; cbn [app];
    (eexists; split; [reflexivity|]);
    rewrite <- ?app_assoc in *; cbn [app] in *.
  all: subst scroll; split.
  all: try (intros Hin; cbn in Hin; intuition discriminate).
  all: try (intros _; eexists; split; [reflexivity|reflexivity]).
  all: try (intros H1 H2; cbn; tauto).
  all: try (intros H1 H2; exfalso;
            repeat match goal with
                   | E : scrollIntoViewReply _ _ = _ |- _ =>
                       rewrite E in *; clear E
                   end; cbn in *; congruence).
Qed.

(** C10 for a click without options in a browser where everything goes
    well: two scroll evaluations, the two requests of the clickable point,
    then the pointer action. *)
Lemma performPointerAction_default_scrolls_twice_witness :
  exists tail : History,
    history (snd (_performPointerAction None quietBrowser freshPage))
    = EvaluateScrollIntoView true :: EvaluateScrollIntoView true
        :: DOM_getContentQuads :: Page_getLayoutMetrics :: tail /\
    scrollIntoViewCount tail = 0%nat.
Proof.
  destruct (performPointerAction_default_scrolls_twice quietBrowser freshPage None
              eq_refl) as (requests & Hhistory & Hshape & Hreached).
  destruct (Hshape (Hreached eq_refl eq_refl)) as (tail & Hrequests & Hcount).
  exists tail. split; [|exact Hcount].
  rewrite Hhistory, Hrequests. reflexivity.
Defined.

(** ** Screenshots *)




(** ** Strings *)

Lemma prefix_cons (c d : ascii) (p s : string) :
  String.prefix (String c p) (String d s)
  = if ascii_dec c d then String.prefix p s else false.
Proof. reflexivity. Qed.

Lemma prefix_spec (p s : string) :
  String.prefix p s = true <-> exists rest : string, s = (p ++ rest)%string.
Proof.
  revert s. induction p as [|c p IH]; intros s.
  - split; [intros _; exists s; reflexivity | intros _; destruct s; reflexivity].
  - destruct s as [|d s].
    + split; [discriminate | intros [rest H]; discriminate H].
    + rewrite prefix_cons. destruct (ascii_dec c d) as [->|Hcd].
      * rewrite IH. split; intros [rest H]; exists rest; cbn in *; congruence.
      * split; [discriminate | intros [rest H]; cbn in H; congruence].
Qed.

Lemma includes_spec (s sub : string) :
  includes s sub = true <->
  exists before after : string, s = (before ++ sub ++ after)%string.
Proof.
  induction s as [|c s IH]; cbn [includes]; rewrite orb_true_iff, prefix_spec.
  - split.
    + intros [[rest H]|H]; [|discriminate].
      exists EmptyString, rest. exact H.
    + intros (before & after & H). left. exists after.
      destruct before; [exact H | discriminate H].
  - rewrite IH. split.
    + intros [[rest H]|(before & after & H)].
      * exists EmptyString, rest. exact H.
      * exists (String c before), after. cbn. congruence.
    + intros (before & after & H). destruct before as [|d before].
      * left. exists after. exact H.
      * right. exists before, after. cbn in H. congruence.
Qed.

Lemma endsWith_spec (s suffix : string) :
  endsWith s suffix = true <-> exists before : string, s = (before ++ suffix)%string.
Proof.
  induction s as [|c s IH]; cbn [endsWith]; rewrite orb_true_iff, String.eqb_eq.
  - split.
    + intros [H|H]; [|discriminate]. exists EmptyString. exact H.
    + intros (before & H). left.
      destruct before; [exact H | discriminate H].
  - rewrite IH. split.
    + intros [H|(before & H)].
      * exists EmptyString. exact H.
      * exists (String c before). cbn. congruence.
    + intros (before & H). destruct before as [|d before].
      * left. exact H.
      * right. exists before. cbn in H. congruence.
Qed.

Lemma substring_whole (s : string) : String.substring 0 (String.length s) s = s.
Proof. induction s as [|c s IH]; cbn; [reflexivity | now rewrite IH]. Qed.

Lemma decimal_denotes (z : Z) : denotes (decimal z) = Some z.
Proof.
  unfold denotes, decimal.
  rewrite NilZero.isi.
  - cbn. now rewrite DecimalZ.of_to.
  - destruct z; cbn; try discriminate.
    intros [= H]. now apply DecimalPos.Unsigned.to_uint_nonnil in H.
  - destruct z; cbn; try discriminate.
    intros [= H]. now apply DecimalPos.Unsigned.to_uint_nonnil in H.
Qed.

(** ** Rejected evaluations *)

Lemma benign_dec (message : string) :
  (includes message "Object reference chain is too long"
   || includes message "Object couldn't be returned by value")%bool = true
  <-> benign message.
Proof.
  unfold benign, contains. rewrite orb_true_iff, !includes_spec. reflexivity.
Qed.

Lemma contextGone_dec (message : string) :
  (endsWith message "Cannot find context with specified id"
   || endsWith message "Inspected target navigated or closed")%bool = true
  <-> contextGone message.
Proof.
  unfold contextGone, endsIn. rewrite orb_true_iff, !endsWith_spec. reflexivity.
Qed.

(** C4. The message of the rejection determines the outcome of
    [rewriteError], in this order: a message that contains one of the two
    benign texts gives the reply whose result is [undefined], without any
    exception; otherwise a message that ends in one of the two
    context-is-gone texts gives the context-destroyed error; every other
    rejection is thrown again as it is. *)
Theorem rewriteError_outcomes (message : string) :
  (benign message ->
   rewriteError message
   = Ok (mkEvaluateReturnValue (mkRemoteObject "undefined" None None VUndefined None)
           None)) /\
  (~ benign message -> contextGone message ->
   rewriteError message
   = Throw "Execution context was destroyed, most likely because of a navigation.") /\
  (~ benign message -> ~ contextGone message ->
   rewriteError message = Throw message).
Proof.
  unfold rewriteError.
  pose proof (benign_dec message) as Hbenign.
  pose proof (contextGone_dec message) as Hgone.
  destruct (includes message "Object reference chain is too long");
    [|destruct (includes message "Object couldn't be returned by value")];
    cbn [orb] in Hbenign.
  1,2: repeat split; try reflexivity; intros Hnot; exfalso; apply Hnot, Hbenign;
       reflexivity.
  destruct (endsWith message "Cannot find context with specified id"
            || endsWith message "Inspected target navigated or closed")%bool.
  - repeat split.
    + intros H. apply Hbenign in H. discriminate H.
    + intros _ Hnot. exfalso. apply Hnot, Hgone. reflexivity.
  - repeat split.
    + intros H. apply Hbenign in H. discriminate H.
    + intros _ H. apply Hgone in H. discriminate H.
Qed.

(** C4 at three rejections: a value too deep, a target that navigated, and
    an unrelated protocol error. *)
Lemma rewriteError_outcomes_witness :
  rewriteError "Protocol error: Object reference chain is too long"
  = Ok (mkEvaluateReturnValue undefinedRemoteObject None) /\
  rewriteError "Protocol error (Runtime.callFunctionOn): Inspected target navigated or closed"
  = Throw contextDestroyedMessage /\
  rewriteError "Protocol error (Runtime.callFunctionOn): Session closed."
  = Throw "Protocol error (Runtime.callFunctionOn): Session closed.".
Proof.
  split; [|split].
  - apply (proj1 (rewriteError_outcomes _)).
    apply benign_dec. vm_compute. reflexivity.
  - apply (proj1 (proj2 (rewriteError_outcomes _))).
    + intros H. apply benign_dec in H. vm_compute in H. discriminate H.
    + apply contextGone_dec. vm_compute. reflexivity.
  - apply (proj2 (proj2 (rewriteError_outcomes _))).
    + intros H. apply benign_dec in H. vm_compute in H. discriminate H.
    + intros H. apply contextGone_dec in H. vm_compute in H. discriminate H.
Defined.

(** ** Converting the arguments of an evaluation *)

(** C5. A handle of another execution context makes the conversion fail
    with the cross-context error (disposed or not), and a disposed handle of
    the same context makes it fail with the disposed-handle error, whatever
    its remote object is: an object id, an inline value or an
    unserializable value. *)
Theorem convertArgument_handle_errors (context : ContextId) :
  (forall h : JSHandle,
      _context h <> context ->
      convertArgument context (Handle h)
      = Throw "JSHandles can be evaluated only in the context they were created!") /\
  (forall h : JSHandle,
      _context h = context -> _disposed h = true ->
      convertArgument context (Handle h) = Throw "JSHandle is disposed!") /\
  (forall (remote : RemoteObject) (element : bool),
      convertArgument context (Handle (mkJSHandle context true remote element))
      = Throw "JSHandle is disposed!") /\
  (forall (h : JSHandle) (rest : list Argument),
      _context h <> context \/ _disposed h = true ->
      exists message : string,
        convertArguments context (Handle h :: rest) = Throw message).
Proof.
  assert (Hcross : forall h, _context h <> context ->
            convertArgument context (Handle h) = Throw crossContextMessage).
  { intros h Hne. unfold convertArgument.
    apply Nat.eqb_neq in Hne. rewrite Hne. reflexivity. }
  assert (Hdisposed : forall h, _context h = context -> _disposed h = true ->
            convertArgument context (Handle h) = Throw disposedMessage).
  { intros h He Hd. unfold convertArgument.
    apply Nat.eqb_eq in He. rewrite He, Hd. reflexivity. }
  repeat split.
  - exact Hcross.
  - exact Hdisposed.
  - intros remote element. apply Hdisposed; reflexivity.
  - intros h rest Hbad. cbn [convertArguments].
    destruct (Nat.eq_dec (_context h) context) as [He|Hne].
    + destruct Hbad as [Hne|Hd]; [contradiction|].
      rewrite (Hdisposed h He Hd). eauto.
    + rewrite (Hcross h Hne). eauto.
Qed.

(** C5 at disposed handles of context 1 with each shape of remote object,
    and at a handle of context 2. *)
Lemma convertArgument_handle_errors_witness :
  convertArgument 1%nat (Handle (mkJSHandle 1%nat true objectRemote true))
  = Throw "JSHandle is disposed!" /\
  convertArgument 1%nat (Handle (mkJSHandle 1%nat true inlineRemote false))
  = Throw "JSHandle is disposed!" /\
  convertArgument 1%nat (Handle (mkJSHandle 1%nat true unserializableRemote false))
  = Throw "JSHandle is disposed!" /\
  convertArgument 1%nat (Handle (mkJSHandle 2%nat true objectRemote true))
  = Throw "JSHandles can be evaluated only in the context they were created!".
Proof.
  destruct (convertArgument_handle_errors 1%nat) as (Hcross & Hdisposed & _ & _).
  split; [|split; [|split]].
  - apply Hdisposed; reflexivity.
  - apply Hdisposed; reflexivity.
  - apply Hdisposed; reflexivity.
  - apply Hcross. cbn. discriminate.
Defined.

(** C6. A bigint is sent as its decimal digits followed by [n]; negative
    zero, the two infinities and NaN are sent as the texts [-0], [Infinity],
    [-Infinity] and [NaN], while zero itself is sent by value; and every
    other value that is not a handle is sent by value, as it is. *)
Theorem convertArgument_unserializable_values (context : ContextId) :
  (forall z : Z,
      exists digits : string,
        convertArgument context (Plain (VBigInt z))
        = Ok (CallUnserializable (digits ++ "n")) /\
        denotes digits = Some z) /\
  convertArgument context (Plain (VBigInt 9007199254740993))
  = Ok (CallUnserializable "9007199254740993n") /\
  convertArgument context (Plain (VBigInt (-42)))
  = Ok (CallUnserializable "-42n") /\
  convertArgument context (Plain (VNumber NNegZero)) = Ok (CallUnserializable "-0") /\
  convertArgument context (Plain (VNumber NInfinity))
  = Ok (CallUnserializable "Infinity") /\
  convertArgument context (Plain (VNumber NNegInfinity))
  = Ok (CallUnserializable "-Infinity") /\
  convertArgument context (Plain (VNumber NNaN)) = Ok (CallUnserializable "NaN") /\
  convertArgument context (Plain (VNumber (NInt 0)))
  = Ok (CallValue (VNumber (NInt 0))) /\
  (forall v : JsVal,
      isUnserializable v = false ->
      convertArgument context (Plain v) = Ok (CallValue v)).
Proof.
  repeat split.
  - intros z. exists (decimal z). split; [reflexivity | apply decimal_denotes].
  - intros v Hv. destruct v as [| | |n| | |]; try reflexivity; try discriminate Hv.
    destruct n; try reflexivity; discriminate Hv.
Qed.

(** C6 at some values that are sent by value. *)
Lemma convertArgument_unserializable_values_witness :
  convertArgument 1%nat (Plain (VNumber (NInt 7))) = Ok (CallValue (VNumber (NInt 7))) /\
  convertArgument 1%nat (Plain (VString "NaN")) = Ok (CallValue (VString "NaN")) /\
  convertArgument 1%nat (Plain VUndefined) = Ok (CallValue VUndefined).
Proof.
  destruct (convertArgument_unserializable_values 1%nat)
    as (_ & _ & _ & _ & _ & _ & _ & _ & Hplain).
  split; [|split]; apply Hplain; reflexivity.
Defined.

(** ** Serializing a function *)

Lemma rewriteFunctionText_async (rest : string) :
  rewriteFunctionText ("async " ++ rest) = ("async function " ++ rest)%string.
Proof.
  unfold rewriteFunctionText, startsWith, substringFrom.
  cbn. destruct rest; cbn; [reflexivity|].
  now rewrite substring_whole.
Qed.

Lemma rewriteFunctionText_plain (functionText : string) :
  ~ (exists rest : string, functionText = ("async " ++ rest)%string) ->
  rewriteFunctionText functionText = ("function " ++ functionText)%string.
Proof.
  intros Hnot. unfold rewriteFunctionText, startsWith.
  destruct (String.prefix "async " functionText) eqn:Hprefix; [|reflexivity].
  exfalso. apply Hnot, prefix_spec, Hprefix.
Qed.

(** C9. When the text of the function does not parse as a parenthesized
    expression, the parser is asked exactly once more, for the one rewritten
    text: [async function ] in place of a leading [async ], and
    [function ] put in front otherwise. The rewritten text is the result if
    it parses, and the not-well-serializable error is thrown if it does
    not. *)
Theorem serializeFunction_single_rewrite
    (parses : string -> bool) (functionText : string) :
  parses ("(" ++ functionText ++ ")")%string = false ->
  exists rewritten : string,
    snd (serializeFunction parses functionText)
    = [("(" ++ functionText ++ ")")%string; ("(" ++ rewritten ++ ")")%string] /\
    (forall rest : string,
        functionText = ("async " ++ rest)%string ->
        rewritten = ("async function " ++ rest)%string) /\
    (~ (exists rest : string, functionText = ("async " ++ rest)%string) ->
     rewritten = ("function " ++ functionText)%string) /\
    (parses ("(" ++ rewritten ++ ")")%string = true ->
     fst (serializeFunction parses functionText) = Ok rewritten) /\
    (parses ("(" ++ rewritten ++ ")")%string = false ->
     fst (serializeFunction parses functionText)
     = Throw "Passed function is not well-serializable!").
Proof.
  intros Hfirst. exists (rewriteFunctionText functionText).
  unfold serializeFunction. rewrite Hfirst.
  split; [|split; [|split; [|split]]].
  - destruct (parses ("(" ++ rewriteFunctionText functionText ++ ")")%string);
      reflexivity.
  - intros rest ->. apply rewriteFunctionText_async.
  - apply rewriteFunctionText_plain.
  - intros ->. reflexivity.
  - intros ->. reflexivity.
Qed.

(** C9 at a shorthand method, at an async shorthand method, and at a text
    that no rewrite saves. *)
Lemma serializeFunction_single_rewrite_witness :
  serializeFunction sampleParser "foo(a) { return a; }"
  = (Ok "function foo(a) { return a; }",
     ["(foo(a) { return a; })"; "(function foo(a) { return a; })"]) /\
  fst (serializeFunction sampleParser "async foo(a) { return a; }")
  = Ok "async function foo(a) { return a; }" /\
  serializeFunction (fun _ => false) "get x() { return 1; }"
  = (Throw "Passed function is not well-serializable!",
     ["(get x() { return 1; })"; "(function get x() { return 1; })"]).
Proof.
  split; [|split].
  - destruct (serializeFunction_single_rewrite sampleParser "foo(a) { return a; }"
                eq_refl) as (rewritten & Hasked & _ & Hplain & Hok & _).
    assert (E : rewritten = "function foo(a) { return a; }").
    { apply Hplain. intros [rest H]. discriminate H. }
    subst rewritten. rewrite (surjective_pairing (serializeFunction _ _)).
    rewrite Hasked, (Hok eq_refl). reflexivity.
  - destruct (serializeFunction_single_rewrite sampleParser
                "async foo(a) { return a; }" eq_refl)
      as (rewritten & _ & Hasync & _ & Hok & _).
    assert (E : rewritten = "async function foo(a) { return a; }").
    { apply (Hasync "foo(a) { return a; }"). reflexivity. }
    subst rewritten. exact (Hok eq_refl).
  - destruct (serializeFunction_single_rewrite (fun _ => false)
                "get x() { return 1; }" eq_refl)
      as (rewritten & Hasked & _ & Hplain & _ & Hthrow).
    assert (E : rewritten = "function get x() { return 1; }").
    { apply Hplain. intros [rest H]. discriminate H. }
    subst rewritten. rewrite (surjective_pairing (serializeFunction _ _)).
    rewrite Hasked, (Hthrow eq_refl). reflexivity.
Defined.

(** ** Selecting options *)








(** * Further properties of the code *)

(** ** Clipping to the viewport *)

Lemma clip_coordinate_bounds (a extent : Q) :
  0 <= extent -> 0 <= Qmin (Qmax a 0) extent <= extent.
Proof.
  intros Hextent. split.
  - apply Q.min_glb; [apply Q.le_max_r | exact Hextent].
  - apply Q.le_min_r.
Qed.

Lemma clip_coordinate_fixed (a extent : Q) :
  0 <= a <= extent -> Qmin (Qmax a 0) extent = a.
Proof.
  intros [Hlow Hhigh].
  assert (Hmax : Qmax a 0 = a).
  { unfold Qmax, GenericMinMax.gmax.
    destruct (a ?= 0) eqn:E; try reflexivity.
    apply Qlt_alt in E. lra. }
  rewrite Hmax. unfold Qmin, GenericMinMax.gmin.
  destruct (a ?= extent) eqn:E; try reflexivity.
  apply Qgt_alt in E. lra.
Qed.

Lemma clipped_points_inside (quad : list Point) (width height : Q) :
  0 <= width -> 0 <= height ->
  Forall (inViewport width height) (_intersectQuadWithViewport quad width height).
Proof.
  intros Hw Hh. unfold _intersectQuadWithViewport.
  apply Forall_map, Forall_forall. intros p _. split; cbn [x y].
  - apply clip_coordinate_bounds, Hw.
  - apply clip_coordinate_bounds, Hh.
Qed.

(** X1. In a viewport of non-negative size, [_intersectQuadWithViewport]
    keeps the number of points and puts every point inside the viewport. *)
Theorem intersectQuadWithViewport_inside
    (quad : list Point) (width height : Q) :
  0 <= width -> 0 <= height ->
  List.length (_intersectQuadWithViewport quad width height) = List.length quad /\
  Forall (inViewport width height) (_intersectQuadWithViewport quad width height).
Proof.
  intros Hw Hh. split.
  - apply length_map.
  - apply clipped_points_inside; assumption.
Qed.

Lemma intersectQuadWithViewport_inside_witness :
  Forall (inViewport 800 600)
    (_intersectQuadWithViewport [mkPoint (-(5)) 700; mkPoint 900 10] 800 600).
Proof.
  apply (proj2 (intersectQuadWithViewport_inside
                  [mkPoint (-(5)) 700; mkPoint 900 10] 800 600
                  ltac:(vm_compute; discriminate) ltac:(vm_compute; discriminate))).
Defined.

Lemma clipping_fixes_inside (quad : list Point) (width height : Q) :
  Forall (inViewport width height) quad ->
  _intersectQuadWithViewport quad width height = quad.
Proof.
  induction 1 as [|p l [Hx Hy] _ IH]; [reflexivity|].
  unfold _intersectQuadWithViewport in *. cbn [map]. rewrite IH.
  rewrite (clip_coordinate_fixed _ _ Hx), (clip_coordinate_fixed _ _ Hy).
  destruct p; reflexivity.
Qed.

(** X2. Points that already lie in the viewport are left exactly as they
    are, so clipping a second time changes nothing. *)
Theorem intersectQuadWithViewport_fixes_inside
    (quad : list Point) (width height : Q) :
  (Forall (inViewport width height) quad ->
   _intersectQuadWithViewport quad width height = quad) /\
  (0 <= width -> 0 <= height ->
   _intersectQuadWithViewport (_intersectQuadWithViewport quad width height)
     width height
   = _intersectQuadWithViewport quad width height).
Proof.
  split; [apply clipping_fixes_inside|].
  intros Hw Hh. apply clipping_fixes_inside, clipped_points_inside; assumption.
Qed.

Lemma intersectQuadWithViewport_fixes_inside_witness :
  _intersectQuadWithViewport [mkPoint 10 20; mkPoint 800 0] 800 600
  = [mkPoint 10 20; mkPoint 800 0].
Proof.
  apply (proj1 (intersectQuadWithViewport_fixes_inside
                  [mkPoint 10 20; mkPoint 800 0] 800 600)).
  repeat constructor; vm_compute; discriminate.
Defined.

(** ** More on the area and on the clickable point *)

Lemma mean_of_four_between (a b c d low high : Q) :
  low <= a <= high -> low <= b <= high ->
  low <= c <= high -> low <= d <= high ->
  low <= (0 + a + b + c + d) / 4 <= high.
Proof.
  intros Ha Hb Hc Hd. split.
  - apply Qle_shift_div_l; lra.
  - apply Qle_shift_div_r; lra.
Qed.

(** X3. In a viewport of non-negative size, a clickable point that is
    returned always lies inside the viewport. *)
Theorem clickablePoint_inside_viewport
    (result : option (list ProtocolQuad)) (metrics : LayoutMetrics) (p : Point) :
  0 <= clientWidth (layoutViewport metrics) ->
  0 <= clientHeight (layoutViewport metrics) ->
  clickablePointOf result metrics = Ok p ->
  inViewport (clientWidth (layoutViewport metrics))
             (clientHeight (layoutViewport metrics)) p.
Proof.
  intros Hw Hh Hok.
  destruct result as [quads|]; [|discriminate Hok].
  destruct quads as [|first quads]; [discriminate Hok|].
  rewrite clickablePointOf_filtered in Hok by discriminate.
  destruct (filter _ _) as [|quad survivors] eqn:Hfilter; [discriminate Hok|].
  assert (Hin : In quad (map (clippedQuad metrics) (first :: quads))).
  { eapply proj1, filter_In. rewrite Hfilter. left. reflexivity. }
  apply in_map_iff in Hin. destruct Hin as (raw & <- & _).
  pose proof (clipped_points_inside (_fromProtocolQuad raw) _ _ Hw Hh) as Hinside.
  fold (clippedQuad metrics raw) in Hinside.
  destruct (clippedQuad_four metrics raw) as (a & b & c & d & Hfour).
  rewrite Hfour in Hok, Hinside.
  inversion_clear Hinside as [|? ? [Hax Hay] Hrest].
  inversion_clear Hrest as [|? ? [Hbx Hby] Hrest'].
  inversion_clear Hrest' as [|? ? [Hcx Hcy] Hrest''].
  inversion_clear Hrest'' as [|? ? [Hdx Hdy] _].
  injection Hok as <-. split; cbn [x y fold_left fst snd].
  - apply mean_of_four_between; assumption.
  - apply mean_of_four_between; assumption.
Qed.

Lemma clickablePoint_inside_viewport_witness :
  inViewport 800 600
    (mkPoint ((0 + 10 + 30 + 30 + 10) / 4) ((0 + 10 + 10 + 20 + 20) / 4)).
Proof.
  apply (clickablePoint_inside_viewport (Some [tinyQuad; bigQuad]) viewport800x600).
  - vm_compute. discriminate.
  - vm_compute. discriminate.
  - vm_compute. reflexivity.
Defined.

(** X4. Fewer than three points span no area: [computeQuadArea] is 0 for
    no point, for one point and for two points. *)
Theorem computeQuadArea_fewer_than_three_points :
  computeQuadArea [] == 0 /\
  (forall p : Point, computeQuadArea [p] == 0) /\
  (forall p q : Point, computeQuadArea [p; q] == 0).
Proof.
  split; [reflexivity|]. split.
  - intros p.
    change (computeQuadArea [p]) with (Qabs (0 + directedArea p p)).
    rewrite (Qabs_wd _ 0); [reflexivity|]. unfold directedArea. field.
  - intros p q.
    change (computeQuadArea [p; q])
      with (Qabs (0 + directedArea p q + directedArea q p)).
    rewrite (Qabs_wd _ 0); [reflexivity|]. unfold directedArea. field.
Qed.







(** ** The bounding box *)




(** ** The scroll deltas of a relative point *)








(** ** Pointer actions: scrolling, retry and modifiers *)

Lemma splitAtAction_sound (h before after : History) (p : Point) :
  splitAtAction h = Some (before, p, after) ->
  h = before ++ PointerAction p :: after /\
  countWhere isPointerAction before = 0%nat.
Proof.
  revert before. induction h as [|r h IH]; intros before Hsplit; [discriminate|].
  cbn [splitAtAction] in Hsplit.
  destruct r;
    try (destruct (splitAtAction h) as [[[b q] a]|]; [|discriminate];
         injection Hsplit as <- <- <-;
         destruct (IH b eq_refl) as [-> Hcount]; split; [reflexivity|exact Hcount]).
  injection Hsplit as <- <- <-. split; reflexivity.
Qed.


(** X11. When the first scroll-into-view evaluation is rejected, or returns
    a message, the pointer action fails with that message and makes no other
    request: nothing is measured, no key is pressed and no pointer action is
    performed, whatever the options are. *)
Theorem performPointerAction_scroll_failure_stops
    (browser : Browser) (page : Page) (options : option PointerActionOptions)
    (message : string) :
  let scroll := EvaluateScrollIntoView (_javascriptEnabled page) in
  scrollIntoViewReply browser (history page ++ [scroll]) = Throw message \/
  (scrollIntoViewReply browser (history page ++ [scroll]) = Ok (Some message) /\
   message <> EmptyString) ->
  fst (_performPointerAction options browser page) = Throw message /\
  history (snd (_performPointerAction options browser page))
  = history page ++ [scroll].
Proof.
  intros scroll Hfails.
  unfold _performPointerAction, _scrollIntoViewIfNeeded.
  unfold_M. fold scroll.
  destruct Hfails as [->|[-> Hmessage]].
  - split; reflexivity.
  - apply String.eqb_neq in Hmessage. rewrite Hmessage. split; reflexivity.
Qed.

Lemma performPointerAction_scroll_failure_stops_witness :
  fst (_performPointerAction relativeShiftClick detachedBrowser freshPage)
  = Throw "Node is detached from document"%string /\
  history (snd (_performPointerAction relativeShiftClick detachedBrowser freshPage))
  = [EvaluateScrollIntoView true].
Proof.
  apply (performPointerAction_scroll_failure_stops detachedBrowser freshPage
           relativeShiftClick "Node is detached from document"%string).
  right. split; [reflexivity | discriminate].
Defined.

Ltac normalize_history :=
  rewrite <- ?app_assoc; cbn [app];
  (eexists; split; [reflexivity|]);
  rewrite <- ?app_assoc in *; cbn [app] in *.

Ltac count_requests :=
  cbn [countWhere scrollIntoViewCount filter List.length isScrollBy isGetBoxModel
       isGetContentQuads isPointerAction isScrollIntoView isSetViewport].

(** X12. With a relative point the retry is bounded: the scroll-into-view
    evaluation is made once, the content quads are never requested, the
    page is scrolled at most once, and the point is resolved at most twice,
    the second time only after that one scroll. When the action ends with
    the second resolution, it fails with the failed-to-scroll error. *)
Theorem performPointerAction_relative_bounded_retry
    (browser : Browser) (page : Page) (options : option PointerActionOptions)
    (relative : Point) :
  relativePointOf options = Some relative ->
  exists requests : History,
    history (snd (_performPointerAction options browser page))
    = history page ++ requests /\
    scrollIntoViewCount requests = 1%nat /\
    countWhere isGetContentQuads requests = 0%nat /\
    (countWhere isScrollBy requests <= 1)%nat /\
    (countWhere isGetBoxModel requests <= 1 + countWhere isScrollBy requests)%nat /\
    (countWhere isPointerAction requests <= 1)%nat /\
    (forall metrics : LayoutMetrics,
        countWhere isGetBoxModel requests = 2%nat ->
        last requests DOM_getBoxModel = Page_getLayoutMetrics ->
        layoutMetricsReply browser (history page ++ requests) = Ok metrics ->
        fst (_performPointerAction options browser page)
        = Throw "Failed to scroll relative point into viewport"%string).
Proof.
  intros Hrelative. unfold relativePointOf in Hrelative.
  unfold _performPointerAction. rewrite Hrelative. clear Hrelative.
  unfold _scrollIntoViewIfNeeded, _viewportPointAndScroll, _getBoxModel.
  unfold_M.
  repeat split_reply; normalize_history; count_requests;
    (split; [|split; [|split; [|split; [|split]]]]); try lia; try reflexivity.
  all: intros ? Hcount Hlast Hreply; try discriminate Hcount;
       cbn [last] in Hlast; try discriminate Hlast;
       solve [reflexivity | congruence].
Qed.

Lemma performPointerAction_relative_bounded_retry_witness :
  fst (_performPointerAction farClick quietBrowser freshPage)
  = Throw "Failed to scroll relative point into viewport"%string.
Proof.
  destruct (performPointerAction_relative_bounded_retry quietBrowser freshPage
              farClick (mkPoint 400 (-(700))) eq_refl)
    as (requests & Hhistory & _ & _ & _ & _ & _ & Hfails).
  vm_compute in Hhistory. subst requests.
  exact (Hfails viewport800x600 eq_refl eq_refl eq_refl).
Defined.



(** Forget how the resolved points were computed. *)
Ltac forget_resolutions :=
  repeat match goal with
         | |- context [viewportPointAndScrollOf ?model ?metrics ?relative] =>
             let r := fresh "r" in
             set (r := viewportPointAndScrollOf model metrics relative) in *;
             clearbody r
         end.

(** X14. Modifier keys are put back exactly when the pointer action
    succeeds. If the action is rejected, its rejection is the result and
    nothing is requested after it, so modifiers that were applied stay
    applied. If it succeeds and modifiers were asked for, the request just
    before the action applies them and the one request after it applies the
    modifiers that the first request returned; without modifiers nothing
    follows the action. *)
Theorem performPointerAction_modifiers_restored_iff_action_succeeds
    (browser : Browser) (page : Page) (options : option PointerActionOptions) :
  exists requests : History,
    history (snd (_performPointerAction options browser page))
    = history page ++ requests /\
    forall (before after : History) (p : Point),
      splitAtAction requests = Some (before, p, after) ->
      match pointerActionReply browser (history page ++ before ++ [PointerAction p]) with
      | Throw message =>
          after = [] /\
          fst (_performPointerAction options browser page) = Throw message
      | Ok _ =>
          match modifiersOf options with
          | None => after = []
          | Some pressed =>
              exists restore : list Modifier,
                last before DOM_getBoxModel = EnsureModifiers pressed /\
                ensureModifiersReply browser (history page ++ before) = Ok restore /\
                after = [EnsureModifiers restore]
          end
      end.
Proof.
  unfold modifiersOf, _performPointerAction.
  unfold _scrollIntoViewIfNeeded, _viewportPointAndScroll, _getBoxModel,
    _clickablePoint.
  unfold_M.
  repeat split_reply; normalize_history.
  all: forget_resolutions.
  all: intros ? ? ? Hsplit; cbn [splitAtAction] in Hsplit.
  all: try discriminate Hsplit.
  all: injection Hsplit as <- <- <-; cbn [app last].
  all: repeat match goal with
              | H : pointerActionReply _ _ = _ |- _ => rewrite H; clear H
              | H : match ?o with Some _ => _ | None => _ end = _ |- _ =>
                  rewrite H; clear H
              end.
  all: try (split; reflexivity).
  all: try reflexivity.
  all: try (eexists; split; [reflexivity|]; split; [eassumption|reflexivity]).
Qed.

Lemma performPointerAction_modifiers_restored_iff_action_succeeds_witness :
  fst (_performPointerAction relativeShiftClick actionFailsBrowser freshPage)
  = Throw "Protocol error (Input.dispatchMouseEvent): Target closed."%string /\
  last (history (snd (_performPointerAction relativeShiftClick actionFailsBrowser
                        freshPage))) DOM_getBoxModel
  = PointerAction (mkPoint 505 505).
Proof.
  destruct (performPointerAction_modifiers_restored_iff_action_succeeds
              actionFailsBrowser freshPage relativeShiftClick)
    as (requests & Hhistory & Hsplit).
  rewrite Hhistory. vm_compute in Hhistory. subst requests.
  destruct (Hsplit _ _ _ eq_refl) as [_ Hthrow].
  split; [exact Hthrow | reflexivity].
Defined.

(** ** More on screenshots *)


Lemma enlarged_extent (current measured : Q) :
  current <= Qmax current (ceil measured) /\
  measured <= Qmax current (ceil measured).
Proof.
  split; [apply Q.le_max_l|].
  apply Qle_trans with (ceil measured); [apply Qle_ceiling | apply Q.le_max_r].
Qed.

Ltac unfold_screenshot :=
  unfold fitsViewport, screenshot, boundingBox, _getBoxModel,
    _scrollIntoViewIfNeeded in *;
  unfold_M.

(** X15. When the element, as first measured, fits the viewport (or the
    page has no viewport), [screenshot] never asks for another viewport:
    whatever happens afterwards, the page keeps its viewport. *)
Theorem screenshot_fitting_element_keeps_viewport
    (options : ScreenshotOptions) (browser : Browser) (page : Page) :
  fitsViewport browser page ->
  exists requests : History,
    history (snd (screenshot options browser page)) = history page ++ requests /\
    countWhere isSetViewport requests = 0%nat /\
    viewport (snd (screenshot options browser page)) = viewport page.
Proof.
  intros Hfits. unfold_screenshot.
  repeat split_reply; normalize_history; count_requests.
  all: try (split; [reflexivity | congruence]).
  all: exfalso; cbn [fst rwidth rheight] in *;
       match goal with
       | E : (Qgtb _ _ || Qgtb _ _) = true |- _ =>
           apply orb_true_iff in E; destruct E as [E|E]; apply Qgtb_true in E
       end; lra.
Qed.

Lemma screenshot_fitting_element_keeps_viewport_witness :
  viewport (snd (screenshot noOptions quietBrowser freshPage))
  = Some (mkViewport 800 600 []).
Proof.
  destruct (screenshot_fitting_element_keeps_viewport noOptions quietBrowser freshPage)
    as (requests & _ & _ & Hkept).
  - vm_compute. split; discriminate.
  - exact Hkept.
Defined.

(** X16. Every viewport that [screenshot] sets is either the original
    viewport of the page (put back) or an enlarged one that is at least as
    wide and as high as the original viewport and as the element as first
    measured, with the other properties of the original. *)
Theorem screenshot_enlarged_viewport_covers_element
    (options : ScreenshotOptions) (browser : Browser) (page : Page) :
  exists requests : History,
    history (snd (screenshot options browser page)) = history page ++ requests /\
    forall v : Viewport,
      In (SetViewport v) requests ->
      exists (current : Viewport) (box : Rect),
        viewport page = Some current /\
        fst (boundingBox browser page) = Ok (Some box) /\
        (v = current \/ covers v current box).
Proof.
  unfold_screenshot.
  repeat split_reply; normalize_history.
  all: intros ? Hin; cbn [In] in Hin.
  all: repeat (destruct Hin as [Hin|Hin]; try discriminate Hin).
  all: try contradiction.
  all: injection Hin as <-.
  all: eexists; eexists; split; [reflexivity|]; split; [reflexivity|].
  all: try (left; reflexivity).
  all: right; unfold covers; cbn [width height otherProperties rwidth rheight].
  all: match goal with
       | |- ?a <= Qmax ?a (ceil ?b) /\ ?b <= _ /\ ?c <= Qmax ?c (ceil ?d) /\ _ /\ _ =>
           destruct (enlarged_extent a b); destruct (enlarged_extent c d)
       end; tauto.
Qed.


Lemma screenshot_enlarged_viewport_covers_element_witness :
  covers (mkViewport 1000 600 []) (mkViewport 800 600 []) (mkRect 0 0 1000 50).
Proof.
  destruct (screenshot_enlarged_viewport_covers_element noOptions wideBrowser freshPage)
    as (requests & Hhistory & Hcovers).
  vm_compute in Hhistory. subst requests.
  destruct (Hcovers (mkViewport 1000 600 [])) as (current & box & Hc & Hb & Hv).
  - right. left. reflexivity.
  - injection Hc as <-. vm_compute in Hb. injection Hb as <-.
    destruct Hv as [Hsame|Hcov]; [discriminate Hsame | exact Hcov].
Defined.


(** ** More on the conversion of arguments *)

Lemma convertArgument_accepted (context : ContextId) (arg : Argument) :
  accepted context arg -> exists a : CallArgument, convertArgument context arg = Ok a.
Proof.
  destruct arg as [v|h]; cbn [accepted].
  - intros _. destruct v as [| | |n| | |]; try (eexists; reflexivity).
    destruct n; eexists; reflexivity.
  - intros [Hcontext Hlive]. unfold convertArgument.
    apply Nat.eqb_eq in Hcontext. rewrite Hcontext, Hlive. cbn [negb].
    destruct (present (unserializableValue (toRemoteObject h)));
      [eexists; reflexivity|].
    destruct (negb (present (objectId (toRemoteObject h)))); eexists; reflexivity.
Qed.

Lemma convertArgument_rejected (context : ContextId) (h : JSHandle) :
  ~ accepted context (Handle h) ->
  convertArgument context (Handle h)
  = Throw (if Nat.eqb (_context h) context then disposedMessage
           else crossContextMessage).
Proof.
  cbn [accepted]. intros Hnot. unfold convertArgument.
  destruct (Nat.eqb (_context h) context) eqn:Hcontext; cbn [negb]; [|reflexivity].
  destruct (_disposed h) eqn:Hdisposed; [reflexivity|].
  exfalso. apply Hnot. split; [apply Nat.eqb_eq, Hcontext | reflexivity].
Qed.

Lemma accepted_dec (context : ContextId) (arg : Argument) :
  {accepted context arg} + {~ accepted context arg}.
Proof.
  destruct arg as [v|h]; cbn [accepted]; [left; exact I|].
  destruct (Nat.eq_dec (_context h) context) as [Hc|Hc];
    destruct (_disposed h); try (left; split; [assumption|reflexivity]);
    right; intros [H1 H2]; congruence.
Qed.

Lemma convertArguments_accepted (context : ContextId) (args : list Argument) :
  Forall (accepted context) args ->
  exists l : list CallArgument,
    convertArguments context args = Ok l /\ List.length l = List.length args.
Proof.
  induction 1 as [|arg args Harg _ (l & Hl & Hlen)]; cbn [convertArguments].
  - exists []. split; reflexivity.
  - destruct (convertArgument_accepted context arg Harg) as [a ->].
    rewrite Hl. exists (a :: l). split; [reflexivity|]. cbn. now rewrite Hlen.
Qed.

Lemma convertArguments_first_rejected
    (context : ContextId) (pre post : list Argument) (h : JSHandle) :
  Forall (accepted context) pre ->
  ~ accepted context (Handle h) ->
  convertArguments context (pre ++ Handle h :: post)
  = Throw (if Nat.eqb (_context h) context then disposedMessage
           else crossContextMessage).
Proof.
  intros Hpre Hbad. induction Hpre as [|arg pre Harg _ IH]; cbn [app convertArguments].
  - rewrite (convertArgument_rejected context h Hbad). reflexivity.
  - destruct (convertArgument_accepted context arg Harg) as [a ->].
    rewrite IH. reflexivity.
Qed.

Lemma accepted_all_of_converted
    (context : ContextId) (args : list Argument) (l : list CallArgument) :
  convertArguments context args = Ok l ->
  Forall (accepted context) args /\ List.length l = List.length args.
Proof.
  revert l. induction args as [|arg args IH]; intros l Hok.
  - injection Hok as <-. split; [constructor | reflexivity].
  - cbn [convertArguments] in Hok.
    destruct (accepted_dec context arg) as [Harg|Harg].
    + destruct (convertArgument context arg); [|discriminate Hok].
      destruct (convertArguments context args) as [rest|]; [|discriminate Hok].
      injection Hok as <-. destruct (IH rest eq_refl) as [Hall Hlen].
      split; [constructor; assumption | cbn; now rewrite Hlen].
    + destruct arg as [v|h]; [exfalso; apply Harg; exact I|].
      rewrite (convertArgument_rejected context h Harg) in Hok. discriminate Hok.
Qed.

(** X18. The conversion of the arguments succeeds exactly when every handle
    among them belongs to the context and is not disposed; it then gives
    one call argument per argument. *)
Theorem convertArguments_succeeds_iff_accepted
    (context : ContextId) (args : list Argument) :
  ((exists l : list CallArgument, convertArguments context args = Ok l)
   <-> Forall (accepted context) args) /\
  (forall l : list CallArgument,
      convertArguments context args = Ok l -> List.length l = List.length args).
Proof.
  split; [split|].
  - intros [l Hok]. exact (proj1 (accepted_all_of_converted context args l Hok)).
  - intros Hall. destruct (convertArguments_accepted context args Hall) as (l & Hl & _).
    eauto.
  - intros l Hok. exact (proj2 (accepted_all_of_converted context args l Hok)).
Qed.

(** X19. The conversion fails with the error of the first handle that is
    not accepted, whatever comes after it: the cross-context error if that
    handle belongs to another context, the disposed-handle error if it
    belongs to this context and is disposed. *)
Theorem convertArguments_first_rejected_handle
    (context : ContextId) (pre post : list Argument) (h : JSHandle) :
  Forall (accepted context) pre ->
  (_context h <> context ->
   convertArguments context (pre ++ Handle h :: post)
   = Throw "JSHandles can be evaluated only in the context they were created!"%string) /\
  (_context h = context -> _disposed h = true ->
   convertArguments context (pre ++ Handle h :: post)
   = Throw "JSHandle is disposed!"%string).
Proof.
  intros Hpre. split.
  - intros Hother.
    rewrite (convertArguments_first_rejected context pre post h Hpre).
    + apply Nat.eqb_neq in Hother. rewrite Hother. reflexivity.
    + intros [Hsame _]. contradiction.
  - intros Hsame Hdisposed.
    rewrite (convertArguments_first_rejected context pre post h Hpre).
    + apply Nat.eqb_eq in Hsame. rewrite Hsame. reflexivity.
    + intros [_ Hlive]. congruence.
Qed.

(** X20. Only a handle is ever sent by reference: when the conversion gives
    an object id, the argument is a handle of this context that is not
    disposed, whose remote object has that id and no unserializable
    value. *)
Theorem convertArgument_by_reference_only_handles
    (context : ContextId) (arg : Argument) (id : string) :
  convertArgument context arg = Ok (CallObjectId id) ->
  exists h : JSHandle,
    arg = Handle h /\ accepted context (Handle h) /\
    objectId (toRemoteObject h) = Some id /\ id <> EmptyString /\
    present (unserializableValue (toRemoteObject h)) = false.
Proof.
  destruct arg as [v|h]; unfold convertArgument.
  - destruct v as [| | |n| | |]; try discriminate. destruct n; discriminate.
  - destruct (Nat.eqb (_context h) context) eqn:Hcontext; cbn [negb]; [|discriminate].
    destruct (_disposed h) eqn:Hlive; [discriminate|].
    destruct (present (unserializableValue (toRemoteObject h))) eqn:Hu; [discriminate|].
    destruct (objectId (toRemoteObject h)) as [i|] eqn:Hid; cbn [present negb];
      [|discriminate].
    destruct (String.eqb i EmptyString) eqn:Hempty; cbn [negb]; [discriminate|].
    intros [= <-]. exists h.
    split; [reflexivity|].
    split; [split; [apply Nat.eqb_eq, Hcontext | exact Hlive]|].
    split; [exact Hid|].
    split; [apply String.eqb_neq, Hempty | exact Hu].
Qed.

Lemma convertArguments_succeeds_iff_accepted_witness :
  exists l : list CallArgument,
    convertArguments 1%nat [Plain (VString "a"%string); Handle liveNode] = Ok l.
Proof.
  apply (proj1 (convertArguments_succeeds_iff_accepted 1%nat
                  [Plain (VString "a"%string); Handle liveNode])).
  repeat constructor.
Defined.

Lemma convertArguments_first_rejected_handle_witness :
  convertArguments 1%nat [Handle liveNode; Handle foreignNode; Handle disposedNode]
  = Throw "JSHandles can be evaluated only in the context they were created!"%string /\
  convertArguments 1%nat [Handle liveNode; Handle disposedNode; Handle foreignNode]
  = Throw "JSHandle is disposed!"%string.
Proof.
  split.
  - apply (proj1 (convertArguments_first_rejected_handle 1%nat
                    [Handle liveNode] [Handle disposedNode] foreignNode
                    ltac:(repeat constructor))).
    discriminate.
  - apply (proj2 (convertArguments_first_rejected_handle 1%nat
                    [Handle liveNode] [Handle foreignNode] disposedNode
                    ltac:(repeat constructor))); reflexivity.
Defined.

Lemma convertArgument_by_reference_only_handles_witness :
  exists h : JSHandle,
    Handle liveNode = Handle h /\ accepted 1%nat (Handle h).
Proof.
  destruct (convertArgument_by_reference_only_handles 1%nat (Handle liveNode)
              "{injectedScriptId:1,id:7}"%string eq_refl)
    as (h & Harg & Haccepted & _).
  exists h. split; assumption.
Defined.

(** ** Evaluating *)

Section EvaluateProperties.

Variable parses : string -> bool.
Variable hasSourceURL : string -> bool.
Variable send : RuntimeRequest -> Result EvaluateReturnValue.
Variable valueFromRemoteObject : RemoteObject -> JsVal.
Variable getExceptionMessage : string -> string.

Lemma finishEvaluate_one_request
    (context : ExecutionContext) (returnByValue : bool) (request : RuntimeRequest) :
  snd (finishEvaluate send valueFromRemoteObject getExceptionMessage
         context returnByValue request) = [request].
Proof.
  unfold finishEvaluate.
  destruct (send request) as [reply|message].
  - destruct (exceptionDetails reply); reflexivity.
  - destruct (rewriteError message) as [reply|e]; [|reflexivity].
    destruct (exceptionDetails reply); reflexivity.
Qed.


Lemma createJSHandle_fields (context : ExecutionContext) (remote : RemoteObject) :
  _context (createJSHandle context remote) = contextId context /\
  _disposed (createJSHandle context remote) = false /\
  toRemoteObject (createJSHandle context remote) = remote.
Proof.
  unfold createJSHandle.
  destruct (subtype remote) as [kind|]; [|repeat split].
  destruct (frame context); [|repeat split].
  destruct (String.eqb kind "node"); repeat split.
Qed.

(** X22. A handle that [evaluate] returns can be passed back: it belongs to
    the evaluating context and is not disposed, so the conversion of
    arguments in that context accepts it, and a further call of a function
    that parses, with that handle among accepted arguments, does send its
    request. In any other context the handle is refused with the
    cross-context error. *)
Theorem evaluate_returned_handle_is_accepted
    (context : ExecutionContext) (pageFunction : PageFunction)
    (args : list Argument) (h : JSHandle) :
  fst (evaluate parses hasSourceURL send valueFromRemoteObject getExceptionMessage
         context false pageFunction args) = Ok (ByHandle h) ->
  accepted (contextId context) (Handle h) /\
  (forall (functionText : string) (before after : list Argument) (byValue : bool),
      parses ("(" ++ functionText ++ ")")%string = true ->
      Forall (accepted (contextId context)) (before ++ after) ->
      List.length
        (snd (evaluate parses hasSourceURL send valueFromRemoteObject
                getExceptionMessage context byValue
                (PageFunctionText functionText) (before ++ Handle h :: after)))
      = 1%nat) /\
  (forall other : ContextId,
      other <> contextId context ->
      convertArgument other (Handle h)
      = Throw "JSHandles can be evaluated only in the context they were created!"%string).
Proof.
  intros Hreturned.
  assert (Hcreated : exists remote, h = createJSHandle context remote).
  { unfold evaluate in Hreturned.
    assert (Hfinish : forall request,
               fst (finishEvaluate send valueFromRemoteObject getExceptionMessage
                      context false request) = Ok (ByHandle h) ->
               exists remote, h = createJSHandle context remote).
    { intros request. unfold finishEvaluate.
      destruct (match send request with
                | Ok reply => Ok reply
                | Throw message => rewriteError message
                end) as [reply|e]; [|discriminate].
      destruct (exceptionDetails reply); [discriminate|].
      cbn [fst]. intros [= <-]. eauto. }
    destruct pageFunction as [expression|functionText|v].
    - exact (Hfinish _ Hreturned).
    - destruct (fst (serializeFunction parses functionText)); [|discriminate Hreturned].
      destruct (convertArguments (contextId context) args); [|discriminate Hreturned].
      exact (Hfinish _ Hreturned).
    - discriminate Hreturned. }
  destruct Hcreated as [remote ->].
  destruct (createJSHandle_fields context remote) as (Hcontext & Hlive & _).
  assert (Haccepted : accepted (contextId context)
                        (Handle (createJSHandle context remote)))
    by (split; assumption).
  split; [exact Haccepted|]. split.
  - intros functionText before after byValue Hparses Hall.
    unfold evaluate, serializeFunction. rewrite Hparses. cbn [fst].
    destruct (convertArguments_accepted (contextId context)
                (before ++ Handle (createJSHandle context remote) :: after))
      as (l & -> & _).
    + apply Forall_app in Hall. destruct Hall as [Hbefore Hafter].
      apply Forall_app. split; [exact Hbefore | constructor; assumption].
    + rewrite finishEvaluate_one_request. reflexivity.
  - intros other Hother.
    rewrite convertArgument_rejected.
    + rewrite Hcontext. apply not_eq_sym, Nat.eqb_neq in Hother.
      rewrite Hother. reflexivity.
    + intros [Hsame _]. rewrite Hcontext in Hsame. congruence.
Qed.

Lemma rewriteError_benign (message : string) :
  benign message ->
  rewriteError message = Ok (mkEvaluateReturnValue undefinedRemoteObject None).
Proof.
  intros H. apply benign_dec in H. unfold rewriteError.
  destruct (includes message "Object reference chain is too long"); [reflexivity|].
  cbn [orb] in H. rewrite H. reflexivity.
Qed.

Lemma rewriteError_not_benign (message : string) :
  ~ benign message ->
  rewriteError message
  = if (endsWith message "Cannot find context with specified id"
        || endsWith message "Inspected target navigated or closed")%bool
    then Throw contextDestroyedMessage else Throw message.
Proof.
  intros H. unfold rewriteError.
  destruct (includes message "Object reference chain is too long") eqn:H1.
  - exfalso. apply H, benign_dec. rewrite H1. reflexivity.
  - destruct (includes message "Object couldn't be returned by value") eqn:H2;
      [|reflexivity].
    exfalso. apply H, benign_dec. rewrite H1, H2. reflexivity.
Qed.

(** X23. How a rejected or failed request ends [evaluate], for a string as
    for a function: after a benign rejection the result is [undefined], as a
    value or as a handle of the context; after a rejection that tells that
    the context is gone the context-destroyed error is thrown; any other
    rejection is thrown as it is; and a reply with exception details is
    thrown as [Evaluation failed: ] followed by the message of the
    exception. *)
Theorem evaluate_failures
    (context : ExecutionContext) (returnByValue : bool)
    (pageFunction : PageFunction) (args : list Argument) (request : RuntimeRequest) :
  let outcome :=
    evaluate parses hasSourceURL send valueFromRemoteObject getExceptionMessage
      context returnByValue pageFunction args in
  snd outcome = [request] ->
  match send request with
  | Throw message =>
      (benign message ->
       fst outcome
       = Ok (if returnByValue
             then ByValue (valueFromRemoteObject undefinedRemoteObject)
             else ByHandle (createJSHandle context undefinedRemoteObject))) /\
      (~ benign message -> contextGone message ->
       fst outcome
       = Throw "Execution context was destroyed, most likely because of a navigation."%string) /\
      (~ benign message -> ~ contextGone message -> fst outcome = Throw message)
  | Ok reply =>
      match exceptionDetails reply with
      | Some details =>
          fst outcome
          = Throw ("Evaluation failed: " ++ getExceptionMessage details)%string
      | None =>
          fst outcome
          = Ok (if returnByValue
                then ByValue (valueFromRemoteObject (result reply))
                else ByHandle (createJSHandle context (result reply)))
      end
  end.
Proof.
  intros outcome Hsent.
  assert (Hfinish : outcome
                    = finishEvaluate send valueFromRemoteObject getExceptionMessage
                        context returnByValue request).
  { unfold outcome, evaluate in *.
    destruct pageFunction as [expression|functionText|v].
    - rewrite finishEvaluate_one_request in Hsent. injection Hsent as <-. reflexivity.
    - destruct (fst (serializeFunction parses functionText)); [|discriminate Hsent].
      destruct (convertArguments (contextId context) args); [|discriminate Hsent].
      rewrite finishEvaluate_one_request in Hsent. injection Hsent as <-. reflexivity.
    - discriminate Hsent. }
  rewrite Hfinish. unfold finishEvaluate.
  destruct (send request) as [reply|message].
  - destruct (exceptionDetails reply); reflexivity.
  - split; [|split].
    + intros Hbenign. rewrite (rewriteError_benign _ Hbenign). reflexivity.
    + intros Hnot Hgone. rewrite (rewriteError_not_benign _ Hnot).
      apply contextGone_dec in Hgone. rewrite Hgone. reflexivity.
    + intros Hnot Hstays. rewrite (rewriteError_not_benign _ Hnot).
      destruct (endsWith message "Cannot find context with specified id"
                || endsWith message "Inspected target navigated or closed")%bool eqn:E;
        [|reflexivity].
      exfalso. apply Hstays, contextGone_dec, E.
Qed.

End EvaluateProperties.


Lemma evaluate_returned_handle_is_accepted_witness :
  accepted 1%nat (Handle (createJSHandle mainContext objectRemote)).
Proof.
  apply (evaluate_returned_handle_is_accepted
           sampleParser (fun _ => false) nodeSession value (fun m => m)
           mainContext (PageString "document.body"%string) []
           (createJSHandle mainContext objectRemote) eq_refl).
Defined.

Lemma evaluate_failures_witness :
  fst (evaluate sampleParser (fun _ => false) navigatedSession value (fun m => m)
         mainContext true (PageFunctionText "function () { return 1; }"%string) [])
  = Throw "Execution context was destroyed, most likely because of a navigation."%string.
Proof.
  pose proof (evaluate_failures sampleParser (fun _ => false) navigatedSession value
                (fun m => m) mainContext true
                (PageFunctionText "function () { return 1; }"%string) []
                (Runtime_callFunctionOn
                   ("function () { return 1; }" ++ newline ++ "//# sourceURL="
                      ++ EVALUATION_SCRIPT_URL ++ newline)%string
                   1%nat [] true true true) eq_refl) as H.
  cbv zeta in H. cbn [navigatedSession] in H. destruct H as (_ & Hgone & _).
  apply Hgone.
  - intros Hbenign. apply benign_dec in Hbenign. vm_compute in Hbenign.
    discriminate Hbenign.
  - apply contextGone_dec. vm_compute. reflexivity.
Defined.

(** ** Enumerating properties *)










(** ** Filling in a value *)


